(** * autotls: automatic-TLS server construction and the dual-listener run

    A shallow embedding of [middlewares/server/autotls/autotls.go] and of the
    configuration setters of [server/option.go] it consumes.

    - Pointers ([*autocert.Manager], [*tls.Config]) are locations of an
      explicit heap, so that in-place mutation and aliasing are visible.
    - Package-level state ([route]'s default transporter) is a field of the
      heap.
    - The three goroutines of [run] are an interleaving transition system
      whose labels are the observable events (method calls on the two
      servers, cancellation of the context, returns of the task groups). *)

From Stdlib Require Import Ascii String.
From stdpp Require Import gmap strings list.

Open Scope string_scope.

(** ** Go values shared by all parts *)

(** A Go [error] value that is not nil: a message, or the join of two
    errors ([errors.Join]).  A nil error is [None] in [option error]. *)
Inductive error : Type :=
| ErrMsg (msg : string)
| ErrJoin (e1 e2 : error).

(** The failures an error value carries. *)
Fixpoint err_parts (e : error) : list string :=
  match e with
  | ErrMsg s => [s]
  | ErrJoin a b => (err_parts a ++ err_parts b)%list
  end.

(** [reports r e]: the result [r] of a call carries every failure of [e]. *)
Definition reports (r : option error) (e : error) : Prop :=
  match r with
  | None => False
  | Some e' => forall s, In s (err_parts e) -> In s (err_parts e')
  end.

(** What [fmt] prints for an error with the verb [%v]. *)
Fixpoint Error (e : error) : string :=
  match e with
  | ErrMsg s => s
  | ErrJoin a b => Error a +:+ String "010"%char (Error b)
  end.

(** Heap locations. *)
Abbreviation loc := positive.

(** ** crypto/tls and golang.org/x/crypto/acme/autocert, as far as used *)

Module tls.

(** A value of the function type of [Config.GetCertificate]: the method
    value [m.GetCertificate] of the manager at [m], or a function of the
    caller's, told apart by a tag. *)
Inductive GetCertificateFn : Type :=
| Manager_GetCertificate (m : loc)
| Caller_GetCertificate (tag : nat).

(** [tls.ClientAuthType]. *)
Inductive ClientAuthType : Type :=
| NoClientCert
| RequestClientCert
| RequireAnyClientCert
| VerifyClientCertIfGiven
| RequireAndVerifyClientCert.

(** [tls.Config]: the two fields the package writes and the plain-data
    fields a caller sets (the remaining fields of the Go struct are
    likewise never written by the package; there is no statement in it
    that names them). *)
Record Config : Type := mkConfig {
  GetCertificate : option GetCertificateFn;
  NextProtos : list string;
  ServerName : string;
  ClientAuth : ClientAuthType;
  InsecureSkipVerify : bool;
  CipherSuites : list Z;
  PreferServerCipherSuites : bool;
  SessionTicketsDisabled : bool;
  MinVersion : Z;
  MaxVersion : Z;
  CurvePreferences : list Z
}.

(** The zero value [tls.Config{}]. *)
Definition zero : Config :=
  {| GetCertificate := None; NextProtos := []; ServerName := "";
     ClientAuth := NoClientCert; InsecureSkipVerify := false;
     CipherSuites := []; PreferServerCipherSuites := false;
     SessionTicketsDisabled := false; MinVersion := 0; MaxVersion := 0;
     CurvePreferences := [] |}.

Definition set_GetCertificate (f : option GetCertificateFn) (c : Config) : Config :=
  {| GetCertificate := f; NextProtos := NextProtos c;
     ServerName := ServerName c; ClientAuth := ClientAuth c;
     InsecureSkipVerify := InsecureSkipVerify c;
     CipherSuites := CipherSuites c;
     PreferServerCipherSuites := PreferServerCipherSuites c;
     SessionTicketsDisabled := SessionTicketsDisabled c;
     MinVersion := MinVersion c; MaxVersion := MaxVersion c;
     CurvePreferences := CurvePreferences c |}.

Definition set_NextProtos (p : list string) (c : Config) : Config :=
  {| GetCertificate := GetCertificate c; NextProtos := p;
     ServerName := ServerName c; ClientAuth := ClientAuth c;
     InsecureSkipVerify := InsecureSkipVerify c;
     CipherSuites := CipherSuites c;
     PreferServerCipherSuites := PreferServerCipherSuites c;
     SessionTicketsDisabled := SessionTicketsDisabled c;
     MinVersion := MinVersion c; MaxVersion := MaxVersion c;
     CurvePreferences := CurvePreferences c |}.

(** Two configurations agree on every field except [GetCertificate] and
    [NextProtos]. *)
Definition same_but_cert_and_protos (c c' : Config) : Prop :=
  ServerName c' = ServerName c /\
  ClientAuth c' = ClientAuth c /\
  InsecureSkipVerify c' = InsecureSkipVerify c /\
  CipherSuites c' = CipherSuites c /\
  PreferServerCipherSuites c' = PreferServerCipherSuites c /\
  SessionTicketsDisabled c' = SessionTicketsDisabled c /\
  MinVersion c' = MinVersion c /\
  MaxVersion c' = MaxVersion c /\
  CurvePreferences c' = CurvePreferences c.

End tls.

Module autocert.

(** A non-nil [autocert.Cache]: a [DirCache] or another implementation. *)
Inductive Cache : Type :=
| DirCache (dir : string)
| OtherCache (tag : nat).

(** [autocert.HostPolicy]: [func(ctx, host string) error]. *)
Definition HostPolicy : Type := string -> option error.

(** [autocert.Manager]; [Prompt] is a [func(tosURL string) bool] or nil. *)
Record Manager : Type := mkManager {
  Prompt : option (string -> bool);
  Cache_ : option Cache;
  HostPolicy_ : option HostPolicy;
  Email : string;
  RenewBefore : Z
}.

Definition set_Cache (c : option Cache) (m : Manager) : Manager :=
  {| Prompt := Prompt m; Cache_ := c; HostPolicy_ := HostPolicy_ m;
     Email := Email m; RenewBefore := RenewBefore m |}.

Definition set_HostPolicy (p : option HostPolicy) (m : Manager) : Manager :=
  {| Prompt := Prompt m; Cache_ := Cache_ m; HostPolicy_ := p;
     Email := Email m; RenewBefore := RenewBefore m |}.

(** Two managers agree on every field except [Cache]. *)
Definition same_but_cache (m m' : Manager) : Prop :=
  Prompt m' = Prompt m /\ HostPolicy_ m' = HostPolicy_ m /\
  Email m' = Email m /\ RenewBefore m' = RenewBefore m.

Definition AcceptTOS : string -> bool := fun _ => true.

(** [acme.ALPNProto]. *)
Definition ALPNProto : string := "acme-tls/1".

(** The digits of [lowerhex] in strconv. *)
Definition lowerhex : list ascii :=
  ["0"; "1"; "2"; "3"; "4"; "5"; "6"; "7"; "8"; "9";
   "a"; "b"; "c"; "d"; "e"; "f"]%char.

Definition hex (n : nat) : ascii := nth n lowerhex "0"%char.

(** One byte as [strconv.Quote] writes it: the double quote (34) and the
    backslash (92) get a backslash before them, the control characters
    their letter or [\x] and two digits, and every other byte is kept;
    this is what Go does for ASCII and for the bytes of a printable
    character above 127. *)
Definition quote_byte (c : ascii) : string :=
  let n := nat_of_ascii c in
  let esc := String "092"%char in
  if Nat.eqb n 34 || Nat.eqb n 92 then esc (String c EmptyString)
  else if Nat.eqb n 7 then esc "a"
  else if Nat.eqb n 8 then esc "b"
  else if Nat.eqb n 12 then esc "f"
  else if Nat.eqb n 10 then esc "n"
  else if Nat.eqb n 13 then esc "r"
  else if Nat.eqb n 9 then esc "t"
  else if Nat.eqb n 11 then esc "v"
  else if Nat.ltb n 32 || Nat.eqb n 127
       then esc (String "x"%char
                   (String (hex (Nat.div n 16))
                      (String (hex (Nat.modulo n 16)) EmptyString)))
  else String c EmptyString.

Fixpoint quote_bytes (s : string) : string :=
  match s with
  | EmptyString => EmptyString
  | String c s' => quote_byte c +:+ quote_bytes s'
  end.

(** [strconv.Quote], which the verb [%q] applies to a string. *)
Definition quote (s : string) : string :=
  String "034"%char (quote_bytes s) +:+ String "034"%char "".

Section HostWhitelist.
(** [idna.Lookup.ToASCII]: the ASCII form of a host name, or a failure. *)
Variable ToASCII : string -> option string.

(** The loop of [HostWhitelist] that fills [whitelist]; hosts without an
    ASCII form are skipped. *)
Definition whitelist_of (hosts : list string) : gmap string bool :=
  foldl (fun w h => match ToASCII h with
                    | Some h' => <[h' := true]> w
                    | None => w
                    end) ∅ hosts.

(** [autocert.HostWhitelist(hosts...)]. *)
Definition HostWhitelist (hosts : list string) : HostPolicy :=
  let whitelist := whitelist_of hosts in
  fun host =>
    if default false (whitelist !! host) then None
    else Some (ErrMsg ("acme/autocert: host " +:+ quote host +:+
                       " not configured in HostWhitelist")).
End HostWhitelist.



(** The value the method [TLSConfig] builds for the manager at [m]. *)
Definition TLSConfig_value (m : loc) : tls.Config :=
  tls.set_NextProtos ["h2"; "http/1.1"; ALPNProto]
    (tls.set_GetCertificate (Some (tls.Manager_GetCertificate m)) tls.zero).

End autocert.

(** ** pkg/common/config and server/option.go *)

Module config.

(** A transporter constructor, the value [route.SetTransporter] stores. *)
Inductive Transporter : Type :=
| standard_NewTransporter
| netpoll_NewTransporter
| other_NewTransporter (tag : nat).

(** [config.Options], with the fields of the setters embedded below; [TLS]
    is a [*tls.Config]. *)
Record Options : Type := mkOptions {
  KeepAliveTimeout : Z;
  ReadTimeout : Z;
  Addr : string;
  MaxRequestBodySize : Z;
  DisableKeepalive : bool;
  Network : string;
  TLS : option loc;
  H2C : bool;
  ALPN : bool
}.

(** What an option function can write: the options object it is handed and
    the package-level transporter of [route]. *)
Definition opt_state : Type := Options * Transporter.

(** [config.Option]: a struct with the single field [F]. *)
Record Option : Type := mkOption { F : opt_state -> opt_state }.

End config.

Module server.
Import config.

(** [o.KeepAliveTimeout = t] *)
Definition WithKeepAliveTimeout (t : Z) : Option :=
  {| F := fun '(o, tr) =>
       (mkOptions t (ReadTimeout o) (Addr o) (MaxRequestBodySize o)
          (DisableKeepalive o) (Network o) (TLS o) (H2C o) (ALPN o), tr) |}.

(** [o.ReadTimeout = t] *)
Definition WithReadTimeout (t : Z) : Option :=
  {| F := fun '(o, tr) =>
       (mkOptions (KeepAliveTimeout o) t (Addr o) (MaxRequestBodySize o)
          (DisableKeepalive o) (Network o) (TLS o) (H2C o) (ALPN o), tr) |}.

(** [WithHostPorts] sets the listening address: [o.Addr = hp]. *)
Definition WithHostPorts (hp : string) : Option :=
  {| F := fun '(o, tr) =>
       (mkOptions (KeepAliveTimeout o) (ReadTimeout o) hp (MaxRequestBodySize o)
          (DisableKeepalive o) (Network o) (TLS o) (H2C o) (ALPN o), tr) |}.

(** [o.MaxRequestBodySize = bs] *)
Definition WithMaxRequestBodySize (bs : Z) : Option :=
  {| F := fun '(o, tr) =>
       (mkOptions (KeepAliveTimeout o) (ReadTimeout o) (Addr o) bs
          (DisableKeepalive o) (Network o) (TLS o) (H2C o) (ALPN o), tr) |}.

(** [o.DisableKeepalive = !b] *)
Definition WithKeepAlive (b : bool) : Option :=
  {| F := fun '(o, tr) =>
       (mkOptions (KeepAliveTimeout o) (ReadTimeout o) (Addr o)
          (MaxRequestBodySize o) (negb b) (Network o) (TLS o) (H2C o) (ALPN o), tr) |}.

(** [o.Network = nw] *)
Definition WithNetwork (nw : string) : Option :=
  {| F := fun '(o, tr) =>
       (mkOptions (KeepAliveTimeout o) (ReadTimeout o) (Addr o)
          (MaxRequestBodySize o) (DisableKeepalive o) nw (TLS o) (H2C o) (ALPN o), tr) |}.

(** [WithTLS]: [route.SetTransporter(standard.NewTransporter); o.TLS = cfg] *)
Definition WithTLS (cfg : option loc) : Option :=
  {| F := fun '(o, _) =>
       (mkOptions (KeepAliveTimeout o) (ReadTimeout o) (Addr o)
          (MaxRequestBodySize o) (DisableKeepalive o) (Network o) cfg (H2C o)
          (ALPN o), standard_NewTransporter) |}.

(** [WithTransport]: [route.SetTransporter(transporter)] *)
Definition WithTransport (transporter : Transporter) : Option :=
  {| F := fun '(o, _) => (o, transporter) |}.

(** [o.H2C = enable] *)
Definition WithH2C (enable : bool) : Option :=
  {| F := fun '(o, tr) =>
       (mkOptions (KeepAliveTimeout o) (ReadTimeout o) (Addr o)
          (MaxRequestBodySize o) (DisableKeepalive o) (Network o) (TLS o) enable
          (ALPN o), tr) |}.

(** [o.ALPN = enable] *)
Definition WithALPN (enable : bool) : Option :=
  {| F := fun '(o, tr) =>
       (mkOptions (KeepAliveTimeout o) (ReadTimeout o) (Addr o)
          (MaxRequestBodySize o) (DisableKeepalive o) (Network o) (TLS o) (H2C o)
          enable, tr) |}.

End server.

(** ** The heap and the server object *)

(** The objects reachable through pointers, and the package-level
    transporter of [route] that [route.SetTransporter] writes. *)
Record heap : Type := mkHeap {
  managers : gmap loc autocert.Manager;
  configs : gmap loc tls.Config;
  defaultTransporter : config.Transporter
}.

Definition store_manager (p : loc) (m : autocert.Manager) (h : heap) : heap :=
  {| managers := <[p := m]> (managers h); configs := configs h;
     defaultTransporter := defaultTransporter h |}.

Definition store_config (p : loc) (c : tls.Config) (h : heap) : heap :=
  {| managers := managers h; configs := <[p := c]> (configs h);
     defaultTransporter := defaultTransporter h |}.

Definition set_transporter (t : config.Transporter) (h : heap) : heap :=
  {| managers := managers h; configs := configs h; defaultTransporter := t |}.

(** [&autocert.Manager{...}] and [&tls.Config{...}]: a new object at an
    unused location. *)
Definition new_manager (m : autocert.Manager) (h : heap) : heap * loc :=
  let p := fresh (dom (managers h)) in (store_manager p m h, p).

Definition new_config (c : tls.Config) (h : heap) : heap * loc :=
  let p := fresh (dom (configs h)) in (store_config p c h, p).

(** [m.TLSConfig()] for the manager pointer [m]: a new configuration with
    the manager's certificate callback and protocol list. *)
Definition TLSConfig (m : loc) (h : heap) : heap * loc :=
  new_config (autocert.TLSConfig_value m) h.

Module frame.
Import config.

(** A constructed, not yet started server: the options it was built from
    and the transporter its engine took. *)
Record Frame : Type := mkFrame {
  options : Options;
  transport : Transporter
}.

(** The loop of [Options.Apply]: each option's [F] in the order given. *)
Definition Apply (opts : list Option) (s : opt_state) : opt_state :=
  foldl (fun s op => F op s) s opts.

Section Default.
(** The options [config.NewOptions] starts from. *)
Variable defaultOptions : Options.

(** Modelled from the spec: [frame.Default] and the [config.NewOptions] it
    calls are not among the sources.  The specification (section 6) has the
    options applied to a mutable options object before the server is
    constructed; they are applied in the order given, and the engine is then
    built with the transporter that [route] holds at that moment. *)
Definition Default (opts : list Option) (h : heap) : heap * Frame :=
  let '(o, t) := Apply opts (defaultOptions, defaultTransporter h) in
  (set_transporter t h, {| options := o; transport := t |}).
End Default.

End frame.

(** ** middlewares/server/autotls: configuration and construction *)

Module autotls.
Import config.

(** What the package reads from its surroundings: the results of
    [cacheDir()] and [getCacheDir()], two functions of the package that are
    not among the sources, and of [os.MkdirAll(dir, 0o700)]. *)
Record env : Type := mkEnv {
  cacheDir : string;
  MkdirAll : string -> option error;
  getCacheDir : option autocert.Cache * option error
}.

Section Construction.
Variable ToASCII : string -> option string.
Variable defaultOptions : Options.
Variable E : env.

(** [NewTlsConfig(domains...)]: the heap afterwards, the pointer returned
    and the lines written to the standard logger. *)
Definition NewTlsConfig (domains : list string) (h : heap)
  : heap * loc * list string :=
  let '(h, m) :=
    new_manager {| autocert.Prompt := Some autocert.AcceptTOS;
                   autocert.Cache_ := None; autocert.HostPolicy_ := None;
                   autocert.Email := ""; autocert.RenewBefore := 0 |} h in
  let upd (f : autocert.Manager -> autocert.Manager) (h : heap) : heap :=
    match managers h !! m with
    | Some M => store_manager m (f M) h
    | None => h
    end in
  let h :=
    if (0 <? length domains)%nat
    then upd (autocert.set_HostPolicy
                (Some (autocert.HostWhitelist ToASCII domains))) h
    else h in
  let dir := cacheDir E in
  let '(h, out) :=
    match MkdirAll E dir with
    | Some err =>
        (h, ["warning: autocert.NewListener not using a cache: " +:+ Error err])
    | None => (upd (autocert.set_Cache (Some (autocert.DirCache dir))) h, [])
    end in
  let '(h, c) := TLSConfig m h in
  (h, c, out).

(** [NewServerWithManagerAndTlsConfig(m, tlsc, opts...)]: [None] is the
    panic of dereferencing a pointer that holds no object; otherwise the heap
    afterwards, the server and the lines logged. *)
Definition NewServerWithManagerAndTlsConfig
    (m : loc) (tlsc : option loc) (opts : list Option) (h : heap)
  : option (heap * frame.Frame * list string) :=
  match managers h !! m with
  | None => None
  | Some M =>
    let '(h, out) :=
      match autocert.Cache_ M with
      | None =>
          let '(c, e) := getCacheDir E in
          (store_manager m (autocert.set_Cache c M) h,
           match e with Some e => [Error e] | None => [] end)
      | Some _ => (h, [])
      end in
    let '(h, tlsc) :=
      match tlsc with
      | None => TLSConfig m h
      | Some p => (h, p)
      end in
    let '(h, defaultTLSConfig) := TLSConfig m h in
    match configs h !! defaultTLSConfig, configs h !! tlsc with
    | Some D, Some C =>
      let h := store_config tlsc (tls.set_GetCertificate (tls.GetCertificate D) C) h in
      match configs h !! tlsc with
      | None => None
      | Some C =>
        let h := store_config tlsc (tls.set_NextProtos (tls.NextProtos D) C) h in
        let opts := (opts ++ [server.WithHostPorts ":https";
                              server.WithTransport standard_NewTransporter;
                              server.WithTLS (Some tlsc)])%list in
        let '(h, f) := frame.Default defaultOptions opts h in
        Some (h, f, out)
      end
    | _, _ => None
    end
  end.

(** The manager after the cache step of the constructor. *)
Definition with_cache (M : autocert.Manager) : autocert.Manager :=
  match autocert.Cache_ M with
  | None => autocert.set_Cache (getCacheDir E).1 M
  | Some _ => M
  end.

(** The configuration after the two assignments of the constructor. *)
Definition merged (m : loc) (C : tls.Config) : tls.Config :=
  tls.set_NextProtos ["h2"; "http/1.1"; autocert.ALPNProto]
    (tls.set_GetCertificate (Some (tls.Manager_GetCertificate m)) C).

(** The manager [NewTlsConfig] leaves on the heap. *)
Definition built_manager (domains : list string) : autocert.Manager :=
  {| autocert.Prompt := Some autocert.AcceptTOS;
     autocert.Cache_ :=
       match MkdirAll E (cacheDir E) with
       | Some _ => None
       | None => Some (autocert.DirCache (cacheDir E))
       end;
     autocert.HostPolicy_ :=
       if (0 <? length domains)%nat
       then Some (autocert.HostWhitelist ToASCII domains) else None;
     autocert.Email := ""; autocert.RenewBefore := 0 |}.

End Construction.

End autotls.

(** ** context, as far as [run] reads it *)

Module context.

(** Keys are compared with [==] on their dynamic type and value: a key of
    the package's own type [tlsContextKey], or a key of another type. *)
Inductive key : Type :=
| tlsContextKey (s : string)
| other_key (tag : nat).

#[global] Instance key_eq_dec : EqDecision key.
Proof. solve_decision. Defined.

(** A context: [context.Background()], [context.WithValue(parent, k, v)]
    with [v] a string or nil, or a cancellable child of [parent]
    ([WithCancel], [WithTimeout], [WithDeadline]). *)
Inductive Context : Type :=
| Background
| WithValue (parent : Context) (k : key) (v : option string)
| WithCancel (parent : Context).

(** [ctx.Value(k)]; [None] is nil. *)
Fixpoint Value (ctx : Context) (k : key) : option string :=
  match ctx with
  | Background => None
  | WithValue parent k' v => if decide (k = k') then v else Value parent k
  | WithCancel parent => Value parent k
  end.

(** Whether [ctx.Done()] is a channel that can be closed: a receive from the
    nil channel of [Background] blocks for ever. *)
Fixpoint can_cancel (ctx : Context) : bool :=
  match ctx with
  | Background => false
  | WithValue parent _ _ => can_cancel parent
  | WithCancel _ => true
  end.

End context.

(** ** middlewares/server/autotls: the redirect handler *)

Module redirect.

(** What the handler reads of a request: its method, and the host and the
    request URI (path and query string) of its URI, as bytes. *)
Record Request : Type := mkRequest {
  Method : string;
  Host : list ascii;
  RequestURI : list ascii
}.

(** What the handler writes: the arguments of [ctx.Redirect]. *)
Record Response : Type := mkResponse {
  StatusCode : Z;
  Location : list ascii
}.

(** [http.StatusMovedPermanently] *)
Definition StatusMovedPermanently : Z := 301.

(** The conversions [string(b)] and [[]byte(s)]. *)
Definition string_of_bytes (b : list ascii) : string := string_of_list_ascii b.
Definition bytes_of_string (s : string) : list ascii := list_ascii_of_string s.

(** The function registered with [redirectServer.NoRoute]. *)
Definition handler (req : Request) : Response :=
  let target := "https://" +:+ string_of_bytes (Host req)
                           +:+ string_of_bytes (RequestURI req) in
  {| StatusCode := StatusMovedPermanently; Location := bytes_of_string target |}.

(** Modelled from the spec: the router of [frame] is not among the sources.
    The specification (section 4.3) has the [NoRoute] handler invoked for
    every unmatched request: a route table maps a method and a path to a
    handler, and a request that matches no route goes to [NoRoute]. *)
Definition routes : Type := list (string * string * (Request -> Response)).

Fixpoint find_route (rs : routes) (method path : string)
  : option (Request -> Response) :=
  match rs with
  | [] => None
  | (m, p, h) :: rs' =>
      if decide (m = method /\ p = path) then Some h
      else find_route rs' method path
  end.

(** The path of a request URI: the part before the first [?]. *)
Fixpoint path_of (uri : list ascii) : list ascii :=
  match uri with
  | [] => []
  | c :: uri' => if decide (c = "?"%char) then [] else c :: path_of uri'
  end.

Definition serve (rs : routes) (noRoute : Request -> Response) (req : Request)
  : Response :=
  match find_route rs (Method req) (string_of_bytes (path_of (RequestURI req))) with
  | Some h => h req
  | None => noRoute req
  end.

(** The redirect server of [run]: no route is registered on it, only the
    [NoRoute] handler. *)
Definition redirectServer (req : Request) : Response := serve [] handler req.

End redirect.

(** ** middlewares/server/autotls: [run]

    [run] starts three goroutines in the group [g]: one per server that
    calls [Spin], and the shutdown watcher, which starts the two goroutines
    of the group [gShutdown].  An execution is a sequence of events, each
    taken by the goroutine that is at that point or by the surroundings
    (return of a server method, cancellation of the context). *)

Module orchestrator.
Import context.

Definition ctxKey : key := tlsContextKey "autls".
Definition todoCtx : Context := WithValue Background ctxKey (Some "done").

Inductive server : Type := redirectServer | tlsServer.

(** The goroutine [func() error { s.Spin(); return nil }]. *)
Inductive spin_pc : Type :=
| SpinReady       (* started by [g.Go], [Spin] not yet called *)
| Spinning        (* inside [Spin] *)
| SpinTaskDone.   (* has returned nil to [g] *)

(** The shutdown watcher. *)
Inductive watch_pc : Type :=
| WatchReady      (* before [ctx.Value(ctxKey)] *)
| WatchBlocked    (* at [<-ctx.Done()] *)
| WatchShutdown   (* [gShutdown] started, at [gShutdown.Wait()] *)
| WatchDone.      (* has returned to [g] *)

(** A goroutine of [gShutdown]. *)
Inductive shut_pc : Type :=
| ShutIdle        (* not started *)
| ShutReady       (* started by [gShutdown.Go], [Shutdown] not yet called *)
| ShutCalled      (* inside [Shutdown] *)
| ShutDone.       (* has returned the result of [Shutdown] to [gShutdown] *)

Record state : Type := mkState {
  spin_redirect : spin_pc;
  spin_tls : spin_pc;
  watch : watch_pc;
  shut_redirect : shut_pc;
  shut_tls : shut_pc;
  g_err : option error;          (* [g.err] *)
  gShutdown_err : option error;  (* [gShutdown.err] *)
  cancelled : bool;              (* [ctx.Done()] is closed *)
  returned : option (option error)  (* the result of [run], once it returned *)
}.

Definition init : state :=
  {| spin_redirect := SpinReady; spin_tls := SpinReady; watch := WatchReady;
     shut_redirect := ShutIdle; shut_tls := ShutIdle; g_err := None;
     gShutdown_err := None; cancelled := false; returned := None |}.

Definition spin (st : state) (s : server) : spin_pc :=
  match s with redirectServer => spin_redirect st | tlsServer => spin_tls st end.

Definition shut (st : state) (s : server) : shut_pc :=
  match s with redirectServer => shut_redirect st | tlsServer => shut_tls st end.

Definition set_spin (s : server) (pc : spin_pc) (st : state) : state :=
  match s with
  | redirectServer =>
      mkState pc (spin_tls st) (watch st) (shut_redirect st) (shut_tls st)
        (g_err st) (gShutdown_err st) (cancelled st) (returned st)
  | tlsServer =>
      mkState (spin_redirect st) pc (watch st) (shut_redirect st) (shut_tls st)
        (g_err st) (gShutdown_err st) (cancelled st) (returned st)
  end.

Definition set_shut (s : server) (pc : shut_pc) (st : state) : state :=
  match s with
  | redirectServer =>
      mkState (spin_redirect st) (spin_tls st) (watch st) pc (shut_tls st)
        (g_err st) (gShutdown_err st) (cancelled st) (returned st)
  | tlsServer =>
      mkState (spin_redirect st) (spin_tls st) (watch st) (shut_redirect st) pc
        (g_err st) (gShutdown_err st) (cancelled st) (returned st)
  end.

Definition set_watch (pc : watch_pc) (st : state) : state :=
  mkState (spin_redirect st) (spin_tls st) pc (shut_redirect st) (shut_tls st)
    (g_err st) (gShutdown_err st) (cancelled st) (returned st).

Definition set_cancelled (st : state) : state :=
  mkState (spin_redirect st) (spin_tls st) (watch st) (shut_redirect st)
    (shut_tls st) (g_err st) (gShutdown_err st) true (returned st).

Definition set_returned (r : option error) (st : state) : state :=
  mkState (spin_redirect st) (spin_tls st) (watch st) (shut_redirect st)
    (shut_tls st) (g_err st) (gShutdown_err st) (cancelled st) (Some r).

(** [errgroup]: a goroutine that returns a non-nil error stores it in the
    group's [err] through [errOnce], so only the first one is kept. *)
Definition errOnce (slot r : option error) : option error :=
  match slot with
  | Some e => Some e
  | None => r
  end.

(** A goroutine of [g] returns [r]. *)
Definition g_done (r : option error) (st : state) : state :=
  mkState (spin_redirect st) (spin_tls st) (watch st) (shut_redirect st)
    (shut_tls st) (errOnce (g_err st) r) (gShutdown_err st) (cancelled st)
    (returned st).

(** A goroutine of [gShutdown] returns [r]. *)
Definition gShutdown_done (r : option error) (st : state) : state :=
  mkState (spin_redirect st) (spin_tls st) (watch st) (shut_redirect st)
    (shut_tls st) (g_err st) (errOnce (gShutdown_err st) r) (cancelled st)
    (returned st).

Inductive label : Type :=
| SpinCall (s : server)                       (* [s.Spin()] is entered *)
| SpinReturn (s : server) (o : option error)  (* [Spin] comes back, having
                                                 met the failure [o] or none *)
| WatchCheck                                  (* [ctx.Value(ctxKey)] is tested *)
| Cancel                                      (* the context is cancelled *)
| WatchWake                                   (* [<-ctx.Done()] receives *)
| ShutdownCall (s : server)                   (* [s.Shutdown(...)] is entered *)
| ShutdownReturn (s : server) (r : option error)  (* [Shutdown] returns [r] *)
| ShutdownWait                                (* [gShutdown.Wait()] returns *)
| Wait.                                       (* [g.Wait()] returns *)

Definition is_SpinReady (pc : spin_pc) : bool :=
  match pc with SpinReady => true | _ => false end.
Definition is_Spinning (pc : spin_pc) : bool :=
  match pc with Spinning => true | _ => false end.
Definition is_SpinTaskDone (pc : spin_pc) : bool :=
  match pc with SpinTaskDone => true | _ => false end.
Definition is_ShutReady (pc : shut_pc) : bool :=
  match pc with ShutReady => true | _ => false end.
Definition is_ShutCalled (pc : shut_pc) : bool :=
  match pc with ShutCalled => true | _ => false end.
Definition is_ShutDone (pc : shut_pc) : bool :=
  match pc with ShutDone => true | _ => false end.

(** One event of an execution of [run ctx tlsServer]; [None] when the event
    cannot happen in [st]. *)
Definition step (ctx : Context) (st : state) (l : label) : option state :=
  match l with
  | SpinCall s =>
      if is_SpinReady (spin st s) then Some (set_spin s Spinning st) else None
  | SpinReturn s _ =>
      (* the goroutine drops whatever [Spin] met and returns nil *)
      if is_Spinning (spin st s)
      then Some (g_done None (set_spin s SpinTaskDone st)) else None
  | WatchCheck =>
      match watch st with
      | WatchReady =>
          match Value ctx ctxKey with
          | Some _ => Some (g_done None (set_watch WatchDone st))
          | None => Some (set_watch WatchBlocked st)
          end
      | _ => None
      end
  | Cancel =>
      if can_cancel ctx && negb (cancelled st)
      then Some (set_cancelled st) else None
  | WatchWake =>
      match watch st with
      | WatchBlocked =>
          if cancelled st
          then Some (set_shut tlsServer ShutReady
                       (set_shut redirectServer ShutReady
                          (set_watch WatchShutdown st)))
          else None
      | _ => None
      end
  | ShutdownCall s =>
      if is_ShutReady (shut st s) then Some (set_shut s ShutCalled st) else None
  | ShutdownReturn s r =>
      if is_ShutCalled (shut st s)
      then Some (gShutdown_done r (set_shut s ShutDone st)) else None
  | ShutdownWait =>
      match watch st with
      | WatchShutdown =>
          if is_ShutDone (shut_redirect st) && is_ShutDone (shut_tls st)
          then Some (g_done (gShutdown_err st) (set_watch WatchDone st))
          else None
      | _ => None
      end
  | Wait =>
      match watch st, returned st with
      | WatchDone, None =>
          if is_SpinTaskDone (spin_redirect st) && is_SpinTaskDone (spin_tls st)
          then Some (set_returned (g_err st) st) else None
      | _, _ => None
      end
  end.

(** The events [ls] happen in this order from [st]. *)
Fixpoint exec (ctx : Context) (st : state) (ls : list label) : option state :=
  match ls with
  | [] => Some st
  | l :: ls' =>
      match step ctx st l with
      | Some st' => exec ctx st' ls'
      | None => None
      end
  end.

(** [run(ctx, tlsServer)]: the executions from the initial state. *)
Definition run (ctx : Context) (ls : list label) : option state :=
  exec ctx init ls.

(** [RunWithContext(ctx, h)] is [run(ctx, h)]. *)
Definition RunWithContext (ctx : Context) (ls : list label) : option state :=
  run ctx ls.

(** [Run(h)] is [run(todoCtx, h)]. *)
Definition Run (ls : list label) : option state :=
  run todoCtx ls.

(** The results of the [Shutdown] calls that have returned, oldest first. *)
Fixpoint shutdown_results (ls : list label) : list (option error) :=
  match ls with
  | [] => []
  | ShutdownReturn _ r :: ls' => r :: shutdown_results ls'
  | _ :: ls' => shutdown_results ls'
  end.

(** The first non-nil error of a list of results. *)
Fixpoint first_err (rs : list (option error)) : option error :=
  match rs with
  | [] => None
  | Some e :: _ => Some e
  | None :: rs' => first_err rs'
  end.

(** What the events [ls] contain. *)
Fixpoint shutdown_called (s : server) (ls : list label) : bool :=
  match ls with
  | [] => false
  | ShutdownCall redirectServer :: ls' =>
      match s with redirectServer => true | _ => shutdown_called s ls' end
  | ShutdownCall tlsServer :: ls' =>
      match s with tlsServer => true | _ => shutdown_called s ls' end
  | _ :: ls' => shutdown_called s ls'
  end.

Fixpoint spin_returned (s : server) (ls : list label) : bool :=
  match ls with
  | [] => false
  | SpinReturn redirectServer _ :: ls' =>
      match s with redirectServer => true | _ => spin_returned s ls' end
  | SpinReturn tlsServer _ :: ls' =>
      match s with tlsServer => true | _ => spin_returned s ls' end
  | _ :: ls' => spin_returned s ls'
  end.

Fixpoint cancel_seen (ls : list label) : bool :=
  match ls with
  | [] => false
  | Cancel :: _ => true
  | _ :: ls' => cancel_seen ls'
  end.

(** Whether [ctx] carries a non-nil value under [ctxKey]. *)
Definition has_marker (ctx : Context) : bool :=
  match Value ctx ctxKey with Some _ => true | None => false end.

Definition is_ShutIdle (pc : shut_pc) : bool :=
  match pc with ShutIdle => true | _ => false end.

(** The program points of the watcher and of its two goroutines that can
    occur together. *)
Definition pcs_ok (marker : bool) (st : state) : bool :=
  match watch st with
  | WatchReady => is_ShutIdle (shut_redirect st) && is_ShutIdle (shut_tls st)
  | WatchBlocked =>
      negb marker && is_ShutIdle (shut_redirect st) && is_ShutIdle (shut_tls st)
  | WatchShutdown =>
      negb marker && cancelled st && negb (is_ShutIdle (shut_redirect st))
      && negb (is_ShutIdle (shut_tls st))
  | WatchDone =>
      if marker
      then is_ShutIdle (shut_redirect st) && is_ShutIdle (shut_tls st)
      else cancelled st && is_ShutDone (shut_redirect st)
           && is_ShutDone (shut_tls st)
  end.

(** What holds of the state [st] reached by the events [ls]. *)
Record Inv (ctx : Context) (ls : list label) (st : state) : Prop := mkInv {
  inv_gShutdown : gShutdown_err st = first_err (shutdown_results ls);
  inv_g : g_err st = match watch st with
                     | WatchDone => gShutdown_err st
                     | _ => None
                     end;
  inv_pcs : pcs_ok (has_marker ctx) st = true;
  inv_no_result : if is_ShutDone (shut_redirect st) || is_ShutDone (shut_tls st)
                  then True else gShutdown_err st = None;
  inv_call_r : shutdown_called redirectServer ls
               = is_ShutCalled (shut_redirect st) || is_ShutDone (shut_redirect st);
  inv_call_t : shutdown_called tlsServer ls
               = is_ShutCalled (shut_tls st) || is_ShutDone (shut_tls st);
  inv_cancelled : cancel_seen ls = cancelled st;
  inv_spin_r : spin_returned redirectServer ls = is_SpinTaskDone (spin_redirect st);
  inv_spin_t : spin_returned tlsServer ls = is_SpinTaskDone (spin_tls st);
  inv_returned : match returned st with
                 | Some r =>
                     r = g_err st /\
                     is_SpinTaskDone (spin_redirect st)
                     && is_SpinTaskDone (spin_tls st) = true /\
                     watch st = WatchDone
                 | None => True
                 end
}.

End orchestrator.

(** ** Concrete objects for the examples *)

Module sample.
Import config.

(** A manager without a cache, as [&autocert.Manager{Prompt: AcceptTOS,
    Email: ...}]. *)
Definition M0 : autocert.Manager :=
  {| autocert.Prompt := Some autocert.AcceptTOS; autocert.Cache_ := None;
     autocert.HostPolicy_ := None; autocert.Email := "ops@example.com";
     autocert.RenewBefore := 0 |}.

(** A caller's configuration: TLS 1.2 at least, one cipher suite, client
    certificates required, and a certificate callback and protocol list of
    its own. *)
Definition C0 : tls.Config :=
  {| tls.GetCertificate := Some (tls.Caller_GetCertificate 7);
     tls.NextProtos := ["spdy/3"]; tls.ServerName := "";
     tls.ClientAuth := tls.RequireAndVerifyClientCert;
     tls.InsecureSkipVerify := false; tls.CipherSuites := [4865%Z];
     tls.PreferServerCipherSuites := true;
     tls.SessionTicketsDisabled := false; tls.MinVersion := 771;
     tls.MaxVersion := 0; tls.CurvePreferences := [29%Z] |}.

Definition h0 : heap :=
  {| managers := {[ 1%positive := M0 ]}; configs := {[ 1%positive := C0 ]};
     defaultTransporter := netpoll_NewTransporter |}.

Definition defaultOptions : Options :=
  mkOptions 60 180 ":8888" 4194304 false "tcp" None false false.

(** Surroundings in which the cache directory can be created. *)
Definition E_ok : autotls.env :=
  {| autotls.cacheDir := "/home/app/.cache/golang-autocert";
     autotls.MkdirAll := fun _ => None;
     autotls.getCacheDir :=
       (Some (autocert.DirCache "/home/app/.cache/golang-autocert"), None) |}.

(** Surroundings in which it cannot. *)
Definition mkdir_error : error :=
  ErrMsg "mkdir /home/app/.cache: permission denied".

Definition E_fail : autotls.env :=
  {| autotls.cacheDir := "/home/app/.cache/golang-autocert";
     autotls.MkdirAll := fun _ => Some mkdir_error;
     autotls.getCacheDir := (None, Some mkdir_error) |}.

(** [idna.Lookup.ToASCII] on host names that are in lower-case ASCII form
    already (letters, digits, hyphens and dots): such a name is its own
    ASCII form.  It stands for the conversion on these names only. *)
Definition ToASCII_id : string -> option string := Some.




Definition bind_error : error :=
  ErrMsg "listen tcp :443: bind: address already in use".
Definition redirect_shutdown_error : error :=
  ErrMsg "redirect server: shutdown timed out".
Definition tls_shutdown_error : error :=
  ErrMsg "tls server: shutdown timed out".

End sample.

Module sample_runs.
Import context orchestrator sample.

(** An execution of [Run] in which the secure server cannot bind. *)
Definition bind_failure : list label :=
  [SpinCall tlsServer; SpinReturn tlsServer (Some bind_error);
   SpinCall redirectServer; WatchCheck; SpinReturn redirectServer None; Wait].

(** An execution of [RunWithContext] in which both [Shutdown] calls fail. *)
Definition both_shutdowns_fail : list label :=
  [SpinCall redirectServer; SpinCall tlsServer; WatchCheck; Cancel; WatchWake;
   ShutdownCall redirectServer; ShutdownCall tlsServer;
   ShutdownReturn redirectServer (Some redirect_shutdown_error);
   ShutdownReturn tlsServer (Some tls_shutdown_error);
   ShutdownWait; SpinReturn redirectServer None; SpinReturn tlsServer None;
   Wait].

(** A context that is cancellable and carries the marker, as an outer
    orchestrator's shutdown handler would pass it. *)
Definition terminating_ctx : Context :=
  WithValue (WithCancel Background) ctxKey (Some "done").

End sample_runs.

(** ** The client options (package [client]) *)

Module retry.

Section Config.
(** The type of a delay policy, which the package [retry] declares. *)
Variable DelayPolicyFunc : Type.

(** [retry.Config], with the fields [WithRetryConfig] initialises;
    durations are in nanoseconds. *)
Record Config : Type := mkConfig {
  MaxAttemptTimes : Z;
  Delay : Z;
  MaxDelay : Z;
  MaxJitter : Z;
  DelayPolicy : DelayPolicyFunc
}.
End Config.

Arguments mkConfig {DelayPolicyFunc}.
Arguments MaxAttemptTimes {DelayPolicyFunc}.
Arguments Delay {DelayPolicyFunc}.
Arguments MaxDelay {DelayPolicyFunc}.
Arguments MaxJitter {DelayPolicyFunc}.
Arguments DelayPolicy {DelayPolicyFunc}.

End retry.

Module client.

(** [time.Millisecond], in nanoseconds. *)
Definition Millisecond : Z := 1000000.

(** A [network.Dialer]: the one [standard.NewDialer()] returns, or
    another. *)
Inductive Dialer : Type :=
| standard_NewDialer
| other_Dialer (tag : nat).

(** [config.ClientOptions], with the fields the setters of the package
    write; [TLSConfig] is a [*tls.Config], [RetryConfig] a
    [*retry.Config], [Dialer] an interface value, nil when [None]. *)
Record ClientOptions : Type := mkClientOptions {
  DialTimeout : Z;
  MaxConnsPerHost : Z;
  MaxIdleConnDuration : Z;
  MaxConnDuration : Z;
  MaxConnWaitTimeout : Z;
  KeepAlive : bool;
  ReadTimeout : Z;
  TLSConfig : option loc;
  Dialer_ : option Dialer;
  ResponseBodyStream : bool;
  DisableHeaderNamesNormalizing : bool;
  Name : string;
  NoDefaultUserAgentHeader : bool;
  DisablePathNormalizing : bool;
  RetryConfig : option loc
}.

(** [config.ClientOption]: a struct with the single field [F]. *)
Record ClientOption : Type := mkClientOption {
  F : ClientOptions -> ClientOptions
}.

(** [o.DialTimeout = dialTimeout] *)
Definition WithDialTimeout (dialTimeout : Z) : ClientOption :=
  {| F := fun o =>
       mkClientOptions dialTimeout (MaxConnsPerHost o) (MaxIdleConnDuration o)
         (MaxConnDuration o) (MaxConnWaitTimeout o) (KeepAlive o)
         (ReadTimeout o) (TLSConfig o) (Dialer_ o) (ResponseBodyStream o)
         (DisableHeaderNamesNormalizing o) (Name o)
         (NoDefaultUserAgentHeader o) (DisablePathNormalizing o)
         (RetryConfig o) |}.

(** [o.MaxConnsPerHost = mc] *)
Definition WithMaxConnsPerHost (mc : Z) : ClientOption :=
  {| F := fun o =>
       mkClientOptions (DialTimeout o) mc (MaxIdleConnDuration o)
         (MaxConnDuration o) (MaxConnWaitTimeout o) (KeepAlive o)
         (ReadTimeout o) (TLSConfig o) (Dialer_ o) (ResponseBodyStream o)
         (DisableHeaderNamesNormalizing o) (Name o)
         (NoDefaultUserAgentHeader o) (DisablePathNormalizing o)
         (RetryConfig o) |}.

(** [o.MaxIdleConnDuration = t] *)
Definition WithMaxIdleConnDuration (t : Z) : ClientOption :=
  {| F := fun o =>
       mkClientOptions (DialTimeout o) (MaxConnsPerHost o) t
         (MaxConnDuration o) (MaxConnWaitTimeout o) (KeepAlive o)
         (ReadTimeout o) (TLSConfig o) (Dialer_ o) (ResponseBodyStream o)
         (DisableHeaderNamesNormalizing o) (Name o)
         (NoDefaultUserAgentHeader o) (DisablePathNormalizing o)
         (RetryConfig o) |}.

(** [o.MaxConnDuration = t] *)
Definition WithMaxConnDuration (t : Z) : ClientOption :=
  {| F := fun o =>
       mkClientOptions (DialTimeout o) (MaxConnsPerHost o)
         (MaxIdleConnDuration o) t (MaxConnWaitTimeout o) (KeepAlive o)
         (ReadTimeout o) (TLSConfig o) (Dialer_ o) (ResponseBodyStream o)
         (DisableHeaderNamesNormalizing o) (Name o)
         (NoDefaultUserAgentHeader o) (DisablePathNormalizing o)
         (RetryConfig o) |}.

(** [o.MaxConnWaitTimeout = t] *)
Definition WithMaxConnWaitTimeout (t : Z) : ClientOption :=
  {| F := fun o =>
       mkClientOptions (DialTimeout o) (MaxConnsPerHost o)
         (MaxIdleConnDuration o) (MaxConnDuration o) t (KeepAlive o)
         (ReadTimeout o) (TLSConfig o) (Dialer_ o) (ResponseBodyStream o)
         (DisableHeaderNamesNormalizing o) (Name o)
         (NoDefaultUserAgentHeader o) (DisablePathNormalizing o)
         (RetryConfig o) |}.

(** [o.KeepAlive = b] *)
Definition WithKeepAlive (b : bool) : ClientOption :=
  {| F := fun o =>
       mkClientOptions (DialTimeout o) (MaxConnsPerHost o)
         (MaxIdleConnDuration o) (MaxConnDuration o) (MaxConnWaitTimeout o) b
         (ReadTimeout o) (TLSConfig o) (Dialer_ o) (ResponseBodyStream o)
         (DisableHeaderNamesNormalizing o) (Name o)
         (NoDefaultUserAgentHeader o) (DisablePathNormalizing o)
         (RetryConfig o) |}.

(** [o.ReadTimeout = t] *)
Definition WithClientReadTimeout (t : Z) : ClientOption :=
  {| F := fun o =>
       mkClientOptions (DialTimeout o) (MaxConnsPerHost o)
         (MaxIdleConnDuration o) (MaxConnDuration o) (MaxConnWaitTimeout o)
         (KeepAlive o) t (TLSConfig o) (Dialer_ o) (ResponseBodyStream o)
         (DisableHeaderNamesNormalizing o) (Name o)
         (NoDefaultUserAgentHeader o) (DisablePathNormalizing o)
         (RetryConfig o) |}.

(** [WithTLSConfig]: [o.TLSConfig = cfg; o.Dialer = standard.NewDialer()] *)
Definition WithTLSConfig (cfg : option loc) : ClientOption :=
  {| F := fun o =>
       mkClientOptions (DialTimeout o) (MaxConnsPerHost o)
         (MaxIdleConnDuration o) (MaxConnDuration o) (MaxConnWaitTimeout o)
         (KeepAlive o) (ReadTimeout o) cfg (Some standard_NewDialer)
         (ResponseBodyStream o) (DisableHeaderNamesNormalizing o) (Name o)
         (NoDefaultUserAgentHeader o) (DisablePathNormalizing o)
         (RetryConfig o) |}.

(** [WithDialer]: [o.Dialer = d] *)
Definition WithDialer (d : option Dialer) : ClientOption :=
  {| F := fun o =>
       mkClientOptions (DialTimeout o) (MaxConnsPerHost o)
         (MaxIdleConnDuration o) (MaxConnDuration o) (MaxConnWaitTimeout o)
         (KeepAlive o) (ReadTimeout o) (TLSConfig o) d
         (ResponseBodyStream o) (DisableHeaderNamesNormalizing o) (Name o)
         (NoDefaultUserAgentHeader o) (DisablePathNormalizing o)
         (RetryConfig o) |}.

(** [o.ResponseBodyStream = b] *)
Definition WithResponseBodyStream (b : bool) : ClientOption :=
  {| F := fun o =>
       mkClientOptions (DialTimeout o) (MaxConnsPerHost o)
         (MaxIdleConnDuration o) (MaxConnDuration o) (MaxConnWaitTimeout o)
         (KeepAlive o) (ReadTimeout o) (TLSConfig o) (Dialer_ o) b
         (DisableHeaderNamesNormalizing o) (Name o)
         (NoDefaultUserAgentHeader o) (DisablePathNormalizing o)
         (RetryConfig o) |}.

(** [o.DisableHeaderNamesNormalizing = disable] *)
Definition WithDisableHeaderNamesNormalizing (disable : bool) : ClientOption :=
  {| F := fun o =>
       mkClientOptions (DialTimeout o) (MaxConnsPerHost o)
         (MaxIdleConnDuration o) (MaxConnDuration o) (MaxConnWaitTimeout o)
         (KeepAlive o) (ReadTimeout o) (TLSConfig o) (Dialer_ o)
         (ResponseBodyStream o) disable (Name o)
         (NoDefaultUserAgentHeader o) (DisablePathNormalizing o)
         (RetryConfig o) |}.

(** [o.Name = name] *)
Definition WithName (name : string) : ClientOption :=
  {| F := fun o =>
       mkClientOptions (DialTimeout o) (MaxConnsPerHost o)
         (MaxIdleConnDuration o) (MaxConnDuration o) (MaxConnWaitTimeout o)
         (KeepAlive o) (ReadTimeout o) (TLSConfig o) (Dialer_ o)
         (ResponseBodyStream o) (DisableHeaderNamesNormalizing o) name
         (NoDefaultUserAgentHeader o) (DisablePathNormalizing o)
         (RetryConfig o) |}.

(** [o.NoDefaultUserAgentHeader = isNoDefaultUserAgentHeader] *)
Definition WithNoDefaultUserAgentHeader (isNoDefaultUserAgentHeader : bool)
  : ClientOption :=
  {| F := fun o =>
       mkClientOptions (DialTimeout o) (MaxConnsPerHost o)
         (MaxIdleConnDuration o) (MaxConnDuration o) (MaxConnWaitTimeout o)
         (KeepAlive o) (ReadTimeout o) (TLSConfig o) (Dialer_ o)
         (ResponseBodyStream o) (DisableHeaderNamesNormalizing o) (Name o)
         isNoDefaultUserAgentHeader (DisablePathNormalizing o)
         (RetryConfig o) |}.

(** [o.DisablePathNormalizing = isDisablePathNormalizing] *)
Definition WithDisablePathNormalizing (isDisablePathNormalizing : bool)
  : ClientOption :=
  {| F := fun o =>
       mkClientOptions (DialTimeout o) (MaxConnsPerHost o)
         (MaxIdleConnDuration o) (MaxConnDuration o) (MaxConnWaitTimeout o)
         (KeepAlive o) (ReadTimeout o) (TLSConfig o) (Dialer_ o)
         (ResponseBodyStream o) (DisableHeaderNamesNormalizing o) (Name o)
         (NoDefaultUserAgentHeader o) isDisablePathNormalizing
         (RetryConfig o) |}.

(** [o.RetryConfig = retryCfg] *)
Definition set_RetryConfig (retryCfg : option loc) (o : ClientOptions)
  : ClientOptions :=
  mkClientOptions (DialTimeout o) (MaxConnsPerHost o)
    (MaxIdleConnDuration o) (MaxConnDuration o) (MaxConnWaitTimeout o)
    (KeepAlive o) (ReadTimeout o) (TLSConfig o) (Dialer_ o)
    (ResponseBodyStream o) (DisableHeaderNamesNormalizing o) (Name o)
    (NoDefaultUserAgentHeader o) (DisablePathNormalizing o) retryCfg.

Section WithRetryConfig.
(** What the packages [retry] and [consts] declare and the sources do not
    contain: the types of a delay policy and of a retry option, the policy
    [retry.CombineDelay(retry.DefaultDelayPolicy)], the constant
    [consts.DefaultMaxRetryTimes], and what [retryCfg.Apply(opts)] makes of
    a configuration. *)
Variable DelayPolicyFunc : Type.
Variable retry_Option : Type.
Variable CombineDelay_DefaultDelayPolicy : DelayPolicyFunc.
Variable DefaultMaxRetryTimes : Z.
Variable retry_Apply :
  list retry_Option -> retry.Config DelayPolicyFunc -> retry.Config DelayPolicyFunc.

(** The configuration [WithRetryConfig] starts from. *)
Definition retry_defaults : retry.Config DelayPolicyFunc :=
  {| retry.MaxAttemptTimes := DefaultMaxRetryTimes;
     retry.Delay := 1 * Millisecond;
     retry.MaxDelay := 100 * Millisecond;
     retry.MaxJitter := 20 * Millisecond;
     retry.DelayPolicy := CombineDelay_DefaultDelayPolicy |}.

(** [WithRetryConfig(opts...)]: the retry configuration is allocated and
    the retry options are applied to it when the option is built; the
    option returned only stores the pointer.  [rs] holds the
    [retry.Config] objects. *)
Definition WithRetryConfig (opts : list retry_Option)
    (rs : gmap loc (retry.Config DelayPolicyFunc))
  : gmap loc (retry.Config DelayPolicyFunc) * ClientOption :=
  let retryCfg := fresh (dom rs) in
  let rs := <[retryCfg := retry_defaults]> rs in
  let rs := match rs !! retryCfg with
            | Some c => <[retryCfg := retry_Apply opts c]> rs
            | None => rs
            end in
  (rs, {| F := set_RetryConfig (Some retryCfg) |}).
End WithRetryConfig.

End client.

(** ** Further vocabulary for the executions of [run] *)

Module orchestrator_ext.
Import context orchestrator.

(** Whether [Spin] has been entered on [s] in [ls]. *)
Fixpoint spin_called (s : server) (ls : list label) : bool :=
  match ls with
  | [] => false
  | SpinCall redirectServer :: ls' =>
      match s with redirectServer => true | _ => spin_called s ls' end
  | SpinCall tlsServer :: ls' =>
      match s with tlsServer => true | _ => spin_called s ls' end
  | _ :: ls' => spin_called s ls'
  end.

(** The events that let the goroutine of [s] finish: [Spin] is entered if
    it was not, and returns. *)
Definition finish_spin (st : state) (s : server) : list label :=
  match spin st s with
  | SpinReady => [SpinCall s; SpinReturn s None]
  | Spinning => [SpinReturn s None]
  | SpinTaskDone => []
  end.

(** The events that let the goroutine of [gShutdown] for [s] finish. *)
Definition finish_shut (st : state) (s : server) : list label :=
  match shut st s with
  | ShutIdle | ShutReady => [ShutdownCall s; ShutdownReturn s None]
  | ShutCalled => [ShutdownReturn s None]
  | ShutDone => []
  end.

(** The events that let the watcher finish: the context is cancelled if it
    was not, and both [Shutdown] calls return. *)
Definition finish_watch (ctx : Context) (st : state) : list label :=
  let cancel := if cancelled st then [] else [Cancel] in
  let shutdown := (finish_shut st redirectServer ++ finish_shut st tlsServer
                   ++ [ShutdownWait])%list in
  match watch st with
  | WatchReady =>
      if has_marker ctx then [WatchCheck]
      else (WatchCheck :: cancel ++ WatchWake :: shutdown)%list
  | WatchBlocked => (cancel ++ WatchWake :: shutdown)%list
  | WatchShutdown => shutdown
  | WatchDone => []
  end.

(** A continuation after which [run] has returned. *)
Definition completion (ctx : Context) (st : state) : list label :=
  (finish_spin st redirectServer ++ finish_spin st tlsServer
   ++ finish_watch ctx st
   ++ match returned st with None => [Wait] | Some _ => [] end)%list.

End orchestrator_ext.

(** ** The setters as a family *)

Module setters.

(** A call of one of the setters of [server/option.go] embedded above. *)
Inductive server_setter : Type :=
| SKeepAliveTimeout (t : Z)
| SReadTimeout (t : Z)
| SHostPorts (hp : string)
| SMaxRequestBodySize (bs : Z)
| SKeepAlive (b : bool)
| SNetwork (nw : string)
| STLS (cfg : option loc)
| STransport (t : config.Transporter)
| SH2C (enable : bool)
| SALPN (enable : bool).

Definition server_option (s : server_setter) : config.Option :=
  match s with
  | SKeepAliveTimeout t => server.WithKeepAliveTimeout t
  | SReadTimeout t => server.WithReadTimeout t
  | SHostPorts hp => server.WithHostPorts hp
  | SMaxRequestBodySize bs => server.WithMaxRequestBodySize bs
  | SKeepAlive b => server.WithKeepAlive b
  | SNetwork nw => server.WithNetwork nw
  | STLS cfg => server.WithTLS cfg
  | STransport t => server.WithTransport t
  | SH2C enable => server.WithH2C enable
  | SALPN enable => server.WithALPN enable
  end.

(** Which setter a call is of. *)
Definition server_kind (s : server_setter) : nat :=
  match s with
  | SKeepAliveTimeout _ => 0 | SReadTimeout _ => 1 | SHostPorts _ => 2
  | SMaxRequestBodySize _ => 3 | SKeepAlive _ => 4 | SNetwork _ => 5
  | STLS _ => 6 | STransport _ => 7 | SH2C _ => 8 | SALPN _ => 9
  end.

(** [WithTLS] and [WithTransport] both write the transporter of [route]. *)
Definition server_clash (a b : server_setter) : bool :=
  match a, b with
  | STLS _, STransport _ | STransport _, STLS _ => true
  | _, _ => false
  end.

(** A call of one of the setters of the client options; [SRetryConfig p]
    is the option [WithRetryConfig] returns for the configuration it
    allocated at [p]. *)
Inductive client_setter : Type :=
| CDialTimeout (t : Z)
| CMaxConnsPerHost (mc : Z)
| CMaxIdleConnDuration (t : Z)
| CMaxConnDuration (t : Z)
| CMaxConnWaitTimeout (t : Z)
| CKeepAlive (b : bool)
| CClientReadTimeout (t : Z)
| CTLSConfig (cfg : option loc)
| CDialer (d : option client.Dialer)
| CResponseBodyStream (b : bool)
| CDisableHeaderNamesNormalizing (b : bool)
| CName (name : string)
| CNoDefaultUserAgentHeader (b : bool)
| CDisablePathNormalizing (b : bool)
| CRetryConfig (p : loc).

Definition client_option (s : client_setter) : client.ClientOption :=
  match s with
  | CDialTimeout t => client.WithDialTimeout t
  | CMaxConnsPerHost mc => client.WithMaxConnsPerHost mc
  | CMaxIdleConnDuration t => client.WithMaxIdleConnDuration t
  | CMaxConnDuration t => client.WithMaxConnDuration t
  | CMaxConnWaitTimeout t => client.WithMaxConnWaitTimeout t
  | CKeepAlive b => client.WithKeepAlive b
  | CClientReadTimeout t => client.WithClientReadTimeout t
  | CTLSConfig cfg => client.WithTLSConfig cfg
  | CDialer d => client.WithDialer d
  | CResponseBodyStream b => client.WithResponseBodyStream b
  | CDisableHeaderNamesNormalizing b => client.WithDisableHeaderNamesNormalizing b
  | CName name => client.WithName name
  | CNoDefaultUserAgentHeader b => client.WithNoDefaultUserAgentHeader b
  | CDisablePathNormalizing b => client.WithDisablePathNormalizing b
  | CRetryConfig p => {| client.F := client.set_RetryConfig (Some p) |}
  end.

Definition client_kind (s : client_setter) : nat :=
  match s with
  | CDialTimeout _ => 0 | CMaxConnsPerHost _ => 1 | CMaxIdleConnDuration _ => 2
  | CMaxConnDuration _ => 3 | CMaxConnWaitTimeout _ => 4 | CKeepAlive _ => 5
  | CClientReadTimeout _ => 6 | CTLSConfig _ => 7 | CDialer _ => 8
  | CResponseBodyStream _ => 9 | CDisableHeaderNamesNormalizing _ => 10
  | CName _ => 11 | CNoDefaultUserAgentHeader _ => 12
  | CDisablePathNormalizing _ => 13 | CRetryConfig _ => 14
  end.

(** [WithTLSConfig] and [WithDialer] both write [Dialer]. *)
Definition client_clash (a b : client_setter) : bool :=
  match a, b with
  | CTLSConfig _, CDialer _ | CDialer _, CTLSConfig _ => true
  | _, _ => false
  end.

End setters.

(** ** Further concrete objects for the examples *)

Module sample_more.
Import config context orchestrator sample.

(** A manager that has a cache already. *)
Definition M1 : autocert.Manager :=
  autocert.set_Cache (Some (autocert.OtherCache 3)) M0.

Definition h1 : heap :=
  {| managers := {[ 1%positive := M1 ]}; configs := {[ 1%positive := C0 ]};
     defaultTransporter := netpoll_NewTransporter |}.

(** Both servers have stopped, the secure one on a bind failure, and the
    watcher waits for a cancellation. *)
Definition servers_stopped : list label :=
  [SpinCall tlsServer; SpinReturn tlsServer (Some bind_error);
   SpinCall redirectServer; SpinReturn redirectServer None; WatchCheck].

(** Client options before any setter is applied. *)
Definition O0 : client.ClientOptions :=
  client.mkClientOptions 1000000000 512 10000000000 0 0 true 0 None None
    false false "" false false None.

(** A complete execution under a context with the marker. *)
Definition clean_run : list label :=
  [SpinCall redirectServer; SpinReturn redirectServer None;
   SpinCall tlsServer; SpinReturn tlsServer None; WatchCheck; Wait].

End sample_more.

(** * Properties of the construction functions and of the redirect handler *)

Module frame_facts.
Import config frame.

Lemma Apply_app (a b : list Option) (s : opt_state) :
  Apply (a ++ b)%list s = Apply b (Apply a s).
Proof. unfold Apply. apply foldl_app. Qed.

(** The three options the constructor appends decide the address, the
    transporter and the TLS configuration, whatever was applied before. *)
Lemma Apply_forced (opts : list Option) (s : opt_state) (hp : string)
    (t : Transporter) (c : option loc) :
  let r := Apply (opts ++ [server.WithHostPorts hp; server.WithTransport t;
                           server.WithTLS c])%list s in
  Addr r.1 = hp /\ TLS r.1 = c /\ r.2 = standard_NewTransporter.
Proof.
  cbn zeta. rewrite Apply_app. destruct (Apply opts s) as [o tr]. done.
Qed.

End frame_facts.

Module autocert_facts.
Import autocert.

Section Whitelist.
Variable ToASCII : string -> option string.


End Whitelist.
End autocert_facts.

Module autotls_facts.
Import config autotls.

Section Facts.
Variable defaultOptions : Options.
Variable E : env.

Lemma NewServer_spec (m p : loc) (opts : list Option) (h : heap)
    (M : autocert.Manager) (C : tls.Config) :
  managers h !! m = Some M ->
  configs h !! p = Some C ->
  exists h' f out,
    NewServerWithManagerAndTlsConfig defaultOptions E m (Some p) opts h
      = Some (h', f, out) /\
    configs h' !! p = Some (merged m C) /\
    (forall q, q <> p -> is_Some (configs h !! q) ->
               configs h' !! q = configs h !! q) /\
    managers h' !! m = Some (with_cache E M) /\
    (forall q, q <> m -> managers h' !! q = managers h !! q) /\
    Addr (frame.options f) = ":https" /\
    TLS (frame.options f) = Some p /\
    frame.transport f = standard_NewTransporter /\
    defaultTransporter h' = standard_NewTransporter.
Proof.
  intros Hm Hp.
  assert (Hne : fresh (dom (configs h)) <> p).
  { intros Heq. apply (is_fresh (dom (configs h))). rewrite Heq.
    apply elem_of_dom. eauto. }
  unfold NewServerWithManagerAndTlsConfig, with_cache. rewrite Hm.
  pose proof (frame_facts.Apply_forced opts) as HA.
  destruct (autocert.Cache_ M) eqn:HC; [|destruct (getCacheDir E) as [c e]];
    cbn [TLSConfig new_config store_config store_manager configs managers
         defaultTransporter fst snd].
  all: rewrite lookup_insert_eq, (lookup_insert_ne _ _ _ _ Hne), Hp,
         lookup_insert_eq.
  all: unfold frame.Default;
    match goal with
    | |- context [frame.Apply ?l ?s] =>
        specialize (HA s ":https" standard_NewTransporter (Some p));
        cbn zeta in HA;
        destruct (frame.Apply l s) as [o tr] eqn:Happ
    end;
    destruct HA as (HA1 & HA2 & HA3); cbn [fst snd] in *;
    do 3 eexists; (split; [reflexivity|]);
    cbn [set_transporter configs managers defaultTransporter frame.options
         frame.transport store_config store_manager].
  all: assert (Hfr : forall q, is_Some (configs h !! q) ->
                               fresh (dom (configs h)) <> q)
         by (intros q Hs Heq; apply (is_fresh (dom (configs h)));
             rewrite Heq; apply elem_of_dom, Hs).
  all: split_and!; try done.
  all: try (rewrite lookup_insert_eq; reflexivity).
  all: try (intros q Hq Hs; rewrite !lookup_insert_ne by auto; reflexivity).
  all: try (intros q Hq; rewrite lookup_insert_ne by auto; reflexivity).
Qed.

Lemma merged_fields (m : loc) (C : tls.Config) :
  tls.GetCertificate (merged m C) = tls.GetCertificate (autocert.TLSConfig_value m) /\
  tls.NextProtos (merged m C) = tls.NextProtos (autocert.TLSConfig_value m) /\
  tls.same_but_cert_and_protos C (merged m C).
Proof. unfold tls.same_but_cert_and_protos. split_and!; reflexivity. Qed.

Lemma with_cache_fields (M : autocert.Manager) :
  autocert.same_but_cache M (with_cache E M) /\
  autocert.Cache_ (with_cache E M) =
    match autocert.Cache_ M with
    | None => (getCacheDir E).1
    | Some c => Some c
    end.
Proof.
  unfold with_cache, autocert.same_but_cache.
  destruct (autocert.Cache_ M) eqn:HC; split_and!; try reflexivity; done.
Qed.

Variable ToASCII : string -> option string.

Lemma NewTlsConfig_spec (domains : list string) (h : heap) :
  exists h',
    NewTlsConfig ToASCII E domains h =
      (h', fresh (dom (configs h)),
       match MkdirAll E (cacheDir E) with
       | Some err => ["warning: autocert.NewListener not using a cache: "
                        +:+ Error err]
       | None => []
       end) /\
    configs h' !! fresh (dom (configs h)) =
      Some (autocert.TLSConfig_value (fresh (dom (managers h)))) /\
    managers h' !! fresh (dom (managers h)) = Some (built_manager ToASCII E domains) /\
    (forall q, is_Some (configs h !! q) -> configs h' !! q = configs h !! q) /\
    (forall q, is_Some (managers h !! q) -> managers h' !! q = managers h !! q).
Proof.
  assert (Hfc : forall q, is_Some (configs h !! q) ->
                          fresh (dom (configs h)) <> q)
    by (intros q Hs Heq; apply (is_fresh (dom (configs h)));
        rewrite Heq; apply elem_of_dom, Hs).
  assert (Hfm : forall q, is_Some (managers h !! q) ->
                          fresh (dom (managers h)) <> q)
    by (intros q Hs Heq; apply (is_fresh (dom (managers h)));
        rewrite Heq; apply elem_of_dom, Hs).
  unfold NewTlsConfig, built_manager.
  cbn [new_manager store_manager managers configs].
  destruct (0 <? length domains)%nat;
    cbn [managers store_manager]; rewrite ?lookup_insert_eq;
    destruct (MkdirAll E (cacheDir E)) as [err|];
    cbn [managers store_manager TLSConfig new_config configs store_config];
    rewrite ?lookup_insert_eq;
    cbn [managers store_manager TLSConfig new_config configs store_config];
    eexists; (split; [reflexivity|]);
    cbn [managers configs store_config store_manager];
    rewrite ?lookup_insert_eq; split_and!; try reflexivity.
  all: intros q Hs; rewrite !lookup_insert_ne by auto; reflexivity.
Qed.


(** C3. For every caller-supplied configuration [p] handed to
    [NewServerWithManagerAndTlsConfig], the configuration the server is
    built with is that object, its [GetCertificate] and [NextProtos] are
    those of the manager's own [TLSConfig], whatever the caller had set, and
    every other field is as the caller set it. *)
Theorem tls_config_merge (m p : loc) (opts : list Option) (h : heap)
    (M : autocert.Manager) (C : tls.Config) :
  managers h !! m = Some M ->
  configs h !! p = Some C ->
  exists h' f out C',
    NewServerWithManagerAndTlsConfig defaultOptions E m (Some p) opts h
      = Some (h', f, out) /\
    TLS (frame.options f) = Some p /\
    configs h' !! p = Some C' /\
    tls.GetCertificate C' = Some (tls.Manager_GetCertificate m) /\
    tls.GetCertificate C' = tls.GetCertificate (autocert.TLSConfig_value m) /\
    tls.NextProtos C' = tls.NextProtos (autocert.TLSConfig_value m) /\
    tls.same_but_cert_and_protos C C'.
Proof.
  intros Hm Hp.
  destruct (NewServer_spec m p opts h M C Hm Hp)
    as (h' & f & out & Heq & Hc & _ & _ & _ & _ & Htls & _).
  destruct (merged_fields m C) as (Hg & Hn & Hrest).
  exists h', f, out, (merged m C). split_and!; done.
Qed.

(** C5, as the code has it.  The listening address of the server
    [NewServerWithManagerAndTlsConfig] returns is [":https"] and its
    transporter is the standard one, whatever options the caller passed:
    the constructor's own options are appended after the caller's. *)
Theorem address_and_transport_forced (m p : loc) (opts : list Option)
    (h : heap) (M : autocert.Manager) (C : tls.Config) :
  managers h !! m = Some M ->
  configs h !! p = Some C ->
  exists h' f out,
    NewServerWithManagerAndTlsConfig defaultOptions E m (Some p) opts h
      = Some (h', f, out) /\
    Addr (frame.options f) = ":https" /\
    frame.transport f = standard_NewTransporter /\
    defaultTransporter h' = standard_NewTransporter.
Proof.
  intros Hm Hp.
  destruct (NewServer_spec m p opts h M C Hm Hp)
    as (h' & f & out & Heq & _ & _ & _ & _ & Ha & _ & Ht & Hd).
  exists h', f, out. done.
Qed.

(** C10. [NewServerWithManagerAndTlsConfig] writes its arguments in place:
    the caller's configuration keeps every field but [GetCertificate] and
    [NextProtos], which are overwritten; the manager keeps every field but
    [Cache], which is assigned the result of [getCacheDir()] when it was nil
    and kept otherwise; no other manager and no other configuration that
    existed before is changed. *)
Theorem constructor_frame (m p : loc) (opts : list Option) (h : heap)
    (M : autocert.Manager) (C : tls.Config) :
  managers h !! m = Some M ->
  configs h !! p = Some C ->
  exists h' f out C' M',
    NewServerWithManagerAndTlsConfig defaultOptions E m (Some p) opts h
      = Some (h', f, out) /\
    configs h' !! p = Some C' /\
    tls.GetCertificate C' = Some (tls.Manager_GetCertificate m) /\
    tls.NextProtos C' = ["h2"; "http/1.1"; "acme-tls/1"] /\
    tls.same_but_cert_and_protos C C' /\
    managers h' !! m = Some M' /\
    autocert.same_but_cache M M' /\
    autocert.Cache_ M' = match autocert.Cache_ M with
                         | None => (getCacheDir E).1
                         | Some c => Some c
                         end /\
    (forall q, q <> p -> is_Some (configs h !! q) ->
               configs h' !! q = configs h !! q) /\
    (forall q, q <> m -> managers h' !! q = managers h !! q).
Proof.
  intros Hm Hp.
  destruct (NewServer_spec m p opts h M C Hm Hp)
    as (h' & f & out & Heq & Hc & Hco & Hmm & Hmo & _).
  destruct (merged_fields m C) as (Hg & Hn & Hrest).
  destruct (with_cache_fields M) as (Hsame & Hcache).
  exists h', f, out, (merged m C), (with_cache E M). split_and!; done.
Qed.


(** C7. When the cache directory cannot be created, [NewTlsConfig] still
    returns a configuration: one line of warning is logged, the manager is
    left without a cache, and the configuration returned has the manager's
    certificate callback and protocol list.  The function has no error
    result. *)
Theorem NewTlsConfig_cache_failure (domains : list string) (h : heap)
    (err : error) :
  MkdirAll E (cacheDir E) = Some err ->
  exists h' c pm M,
    NewTlsConfig ToASCII E domains h =
      (h', c, ["warning: autocert.NewListener not using a cache: "
                 +:+ Error err]) /\
    configs h' !! c = Some (autocert.TLSConfig_value pm) /\
    tls.GetCertificate (autocert.TLSConfig_value pm)
      = Some (tls.Manager_GetCertificate pm) /\
    tls.NextProtos (autocert.TLSConfig_value pm)
      = ["h2"; "http/1.1"; "acme-tls/1"] /\
    managers h' !! pm = Some M /\
    autocert.Cache_ M = None /\
    autocert.Prompt M = Some autocert.AcceptTOS.
Proof.
  intros Herr.
  destruct (NewTlsConfig_spec domains h) as (h' & Heq & Hc & Hm & _).
  rewrite Herr in Heq.
  eexists h', _, _, (built_manager ToASCII E domains).
  split; [exact Heq|]. split; [exact Hc|].
  split_and!; [reflexivity | reflexivity | exact Hm | | reflexivity].
  unfold built_manager; cbn [autocert.Cache_]. rewrite Herr. reflexivity.
Qed.

End Facts.
End autotls_facts.

Module construction_examples.
Import config autotls sample.

Lemma tls_config_merge_witness :
  exists h' f out C',
    NewServerWithManagerAndTlsConfig defaultOptions E_ok 1 (Some 1%positive)
      [server.WithReadTimeout 30] h0 = Some (h', f, out) /\
    TLS (frame.options f) = Some 1%positive /\
    configs h' !! 1%positive = Some C' /\
    tls.GetCertificate C' = Some (tls.Manager_GetCertificate 1) /\
    tls.GetCertificate C' = tls.GetCertificate (autocert.TLSConfig_value 1) /\
    tls.NextProtos C' = tls.NextProtos (autocert.TLSConfig_value 1) /\
    tls.same_but_cert_and_protos C0 C'.
Proof.
  apply (autotls_facts.tls_config_merge defaultOptions E_ok 1 1
           [server.WithReadTimeout 30] h0 M0 C0); reflexivity.
Defined.

(** C5, as the specification has it, fails: a caller that passes
    [WithHostPorts(":8443")] gets a server whose address is [":https"]. *)
Lemma caller_address_overridden :
  exists h' f out,
    NewServerWithManagerAndTlsConfig defaultOptions E_ok 1 (Some 1%positive)
      [server.WithHostPorts ":8443"] h0 = Some (h', f, out) /\
    Addr (frame.options f) = ":https" /\
    Addr (frame.options f) <> ":8443".
Proof.
  destruct (autotls_facts.NewServer_spec defaultOptions E_ok 1 1
              [server.WithHostPorts ":8443"] h0 M0 C0 eq_refl eq_refl)
    as (h' & f & out & Heq & _ & _ & _ & _ & Ha & _).
  exists h', f, out. split_and!; [done..|]. rewrite Ha. discriminate.
Qed.

Lemma address_and_transport_forced_witness :
  exists h' f out,
    NewServerWithManagerAndTlsConfig defaultOptions E_ok 1 (Some 1%positive)
      [server.WithHostPorts ":8443"; server.WithTransport netpoll_NewTransporter]
      h0 = Some (h', f, out) /\
    Addr (frame.options f) = ":https" /\
    frame.transport f = standard_NewTransporter /\
    defaultTransporter h' = standard_NewTransporter.
Proof.
  apply (autotls_facts.address_and_transport_forced defaultOptions E_ok 1 1
           [server.WithHostPorts ":8443";
            server.WithTransport netpoll_NewTransporter] h0 M0 C0);
    reflexivity.
Defined.

Lemma constructor_frame_witness :
  exists h' f out C' M',
    NewServerWithManagerAndTlsConfig defaultOptions E_ok 1 (Some 1%positive)
      [] h0 = Some (h', f, out) /\
    configs h' !! 1%positive = Some C' /\
    tls.GetCertificate C' = Some (tls.Manager_GetCertificate 1) /\
    tls.NextProtos C' = ["h2"; "http/1.1"; "acme-tls/1"] /\
    tls.same_but_cert_and_protos C0 C' /\
    managers h' !! 1%positive = Some M' /\
    autocert.same_but_cache M0 M' /\
    autocert.Cache_ M' = match autocert.Cache_ M0 with
                         | None => (getCacheDir E_ok).1
                         | Some c => Some c
                         end /\
    (forall q, q <> 1%positive -> is_Some (configs h0 !! q) ->
               configs h' !! q = configs h0 !! q) /\
    (forall q, q <> 1%positive -> managers h' !! q = managers h0 !! q).
Proof.
  apply (autotls_facts.constructor_frame defaultOptions E_ok 1 1 [] h0 M0 C0);
    reflexivity.
Defined.

Lemma NewTlsConfig_cache_failure_witness :
  exists h' c pm M,
    NewTlsConfig ToASCII_id E_fail ["example.com"] h0 =
      (h', c, ["warning: autocert.NewListener not using a cache: "
                 +:+ Error mkdir_error]) /\
    configs h' !! c = Some (autocert.TLSConfig_value pm) /\
    tls.GetCertificate (autocert.TLSConfig_value pm)
      = Some (tls.Manager_GetCertificate pm) /\
    tls.NextProtos (autocert.TLSConfig_value pm)
      = ["h2"; "http/1.1"; "acme-tls/1"] /\
    managers h' !! pm = Some M /\
    autocert.Cache_ M = None /\
    autocert.Prompt M = Some autocert.AcceptTOS.
Proof.
  apply (autotls_facts.NewTlsConfig_cache_failure E_fail ToASCII_id
           ["example.com"] h0 mkdir_error); reflexivity.
Defined.



End construction_examples.

Module redirect_facts.
Import redirect.

Lemma bytes_of_string_app (a b : string) :
  bytes_of_string (a +:+ b) = (bytes_of_string a ++ bytes_of_string b)%list.
Proof.
  unfold bytes_of_string. induction a as [|c a IH]; simpl; [done|].
  by rewrite IH.
Qed.

Lemma bytes_of_string_of_bytes (l : list ascii) :
  bytes_of_string (string_of_bytes l) = l.
Proof. apply list_ascii_of_string_of_list_ascii. Qed.

(** C4. For every request, whatever its method and path, the handler of the
    redirect server answers 301 with the target ["https://"] followed by
    the bytes of the request's host and of its request URI, path and query
    string unchanged; and every request to the redirect server reaches that
    handler. *)
Theorem redirect_handler_301 (req : Request) :
  redirectServer req = handler req /\
  StatusCode (handler req) = 301%Z /\
  string_of_bytes (Location (handler req)) =
    "https://" +:+ string_of_bytes (Host req)
               +:+ string_of_bytes (RequestURI req) /\
  Location (handler req) =
    (bytes_of_string "https://" ++ Host req ++ RequestURI req)%list.
Proof.
  split; [reflexivity|]. split; [reflexivity|]. split.
  - unfold handler, string_of_bytes, bytes_of_string. cbn [Location].
    apply string_of_list_ascii_of_string.
  - unfold handler. cbn [Location].
    rewrite !bytes_of_string_app, !bytes_of_string_of_bytes. reflexivity.
Qed.

End redirect_facts.

(** * Properties of [run] *)

Module orchestrator_facts.
Import context orchestrator.

Lemma errOnce_nil (slot : option error) : errOnce slot None = slot.
Proof. destruct slot; reflexivity. Qed.

Lemma first_err_app (a b : list (option error)) :
  first_err (a ++ b) = errOnce (first_err a) (first_err b).
Proof.
  induction a as [|[e|] a IH]; simpl; [by destruct (first_err b) | done | done].
Qed.

Lemma shutdown_results_app (a b : list label) :
  shutdown_results (a ++ b) = (shutdown_results a ++ shutdown_results b)%list.
Proof.
  induction a as [|l a IH]; simpl; [done|]. destruct l; simpl; by rewrite ?IH.
Qed.

Lemma shutdown_called_app (s : server) (a b : list label) :
  shutdown_called s (a ++ b) = shutdown_called s a || shutdown_called s b.
Proof.
  induction a as [|l a IH]; simpl; [done|].
  destruct l as [| | | | |[]| | |], s; simpl; by rewrite ?IH.
Qed.

Lemma spin_returned_app (s : server) (a b : list label) :
  spin_returned s (a ++ b) = spin_returned s a || spin_returned s b.
Proof.
  induction a as [|l a IH]; simpl; [done|].
  destruct l as [|[]| | | | | | |], s; simpl; by rewrite ?IH.
Qed.

Lemma cancel_seen_app (a b : list label) :
  cancel_seen (a ++ b) = cancel_seen a || cancel_seen b.
Proof.
  induction a as [|l a IH]; simpl; [done|]. destruct l; simpl; by rewrite ?IH.
Qed.

Lemma Inv_init (ctx : Context) : Inv ctx [] init.
Proof. constructor; simpl; try done. Qed.

Ltac step_cases Hstep :=
  unfold is_SpinReady, is_Spinning, is_SpinTaskDone, is_ShutReady,
    is_ShutCalled, is_ShutDone, andb, negb in Hstep;
  repeat match type of Hstep with
         | context [match ?x with _ => _ end] =>
             is_var x; destruct x; simpl in Hstep; try discriminate Hstep
         | context [match Value ?c ?k with _ => _ end] =>
             destruct (Value c k) eqn:?; simpl in Hstep
         | context [can_cancel ?c] =>
             destruct (can_cancel c) eqn:?; simpl in Hstep;
             try discriminate Hstep
         end.

Ltac finish :=
  repeat match goal with
         | H : Value _ _ = _ |- _ => rewrite H in *; clear H
         end;
  repeat (match goal with
          | |- context [match Value ?c ?k with _ => _ end] =>
              destruct (Value c k)
          | H : context [match Value ?c ?k with _ => _ end] |- _ =>
              destruct (Value c k)
          | |- context [match ?x with _ => _ end] => is_var x; destruct x
          | H : context [match ?x with _ => _ end] |- _ => is_var x; destruct x
          | H : _ /\ _ |- _ => destruct H
          | H : context [andb ?x _] |- _ => is_var x; destruct x
          | |- context [andb ?x _] => is_var x; destruct x
          end; simpl in *; try done);
  subst; simpl; try (split_and?; congruence).

Lemma step_Inv (ctx : Context) (ls : list label) (st st' : state) (l : label) :
  Inv ctx ls st -> step ctx st l = Some st' -> Inv ctx (ls ++ [l]) st'.
Proof.
  intros [Hgs Hg Hpcs Hnr Hcr Hct Hcanc Hpr Hpt Hret] Hstep.
  unfold pcs_ok, has_marker in *.
  destruct st as [sr stl w shr sht ge gse c ret]. simpl in *.
  destruct l as [s|s o| | | |s|s r| |]; simpl in Hstep.
  all: try destruct s; simpl in Hstep.
  all: step_cases Hstep; injection Hstep as <-.
  all: constructor; unfold pcs_ok, has_marker; simpl; rewrite ?errOnce_nil.
  all: rewrite ?shutdown_results_app, ?first_err_app, ?shutdown_called_app,
         ?spin_returned_app, ?cancel_seen_app; simpl;
       rewrite ?errOnce_nil, ?orb_false_r, ?orb_true_r; try assumption.
  all: unfold is_SpinReady, is_Spinning, is_SpinTaskDone, is_ShutReady,
    is_ShutCalled, is_ShutDone, is_ShutIdle in *; simpl in *; try done.
  all: solve [finish].
Qed.

Lemma exec_Inv (ctx : Context) (ls pre : list label) (st st' : state) :
  Inv ctx pre st -> exec ctx st ls = Some st' -> Inv ctx (pre ++ ls) st'.
Proof.
  revert pre st. induction ls as [|l ls IH]; intros pre st HI Hex; simpl in Hex.
  - injection Hex as <-. by rewrite app_nil_r.
  - destruct (step ctx st l) as [st1|] eqn:Hstep; [|discriminate].
    change (l :: ls) with ([l] ++ ls)%list. rewrite app_assoc.
    eapply IH; [|exact Hex]. by eapply step_Inv.
Qed.

(** Every state [run] reaches satisfies the invariant. *)
Lemma run_Inv (ctx : Context) (ls : list label) (st : state) :
  run ctx ls = Some st -> Inv ctx ls st.
Proof. intros H. apply (exec_Inv ctx ls [] init st (Inv_init ctx) H). Qed.

Lemma shutdown_called_In (s : server) (ls : list label) :
  shutdown_called s ls = true <-> In (ShutdownCall s) ls.
Proof.
  induction ls as [|l ls IH]; simpl; [split; [discriminate | tauto]|].
  destruct l as [| | | | |[]| | |], s; simpl; rewrite ?IH;
    split; auto; try (intros [H|H]; [discriminate H | exact H]).
Qed.

Lemma spin_returned_In (s : server) (ls : list label) :
  spin_returned s ls = true <-> exists o, In (SpinReturn s o) ls.
Proof.
  induction ls as [|l ls IH]; simpl.
  - split; [discriminate | intros [o []]].
  - destruct l as [|[] o'| | | | | | |], s; simpl; rewrite ?IH; split;
      try (intros [o H]; exists o; right; exact H);
      try (intros [o [H|H]]; [discriminate H | exists o; exact H]);
      try (intros _; exists o'; left; reflexivity); auto.
Qed.

Lemma cancel_seen_In (ls : list label) :
  cancel_seen ls = true <-> In Cancel ls.
Proof.
  induction ls as [|l ls IH]; simpl; [split; [discriminate | tauto]|].
  destruct l; simpl; rewrite ?IH; split; auto;
    try (intros [H|H]; [discriminate H | exact H]).
Qed.

Lemma has_marker_true (ctx : Context) :
  has_marker ctx = true <-> Value ctx ctxKey <> None.
Proof. unfold has_marker. destruct (Value ctx ctxKey); split; done. Qed.

Lemma has_marker_false (ctx : Context) :
  has_marker ctx = false <-> Value ctx ctxKey = None.
Proof. unfold has_marker. destruct (Value ctx ctxKey); split; done. Qed.

(** The shape of a state under a context that carries the marker. *)
Lemma marker_state (ctx : Context) (ls : list label) (st : state) :
  Value ctx ctxKey <> None -> Inv ctx ls st ->
  (watch st = WatchReady \/ watch st = WatchDone) /\
  shut_redirect st = ShutIdle /\ shut_tls st = ShutIdle /\
  g_err st = None /\ gShutdown_err st = None.
Proof.
  intros Hm%has_marker_true [Hgs Hg Hpcs Hnr _ _ _ _ _ _].
  unfold pcs_ok in Hpcs. rewrite Hm in Hpcs.
  destruct st as [sr stl w shr sht ge gse c ret]; simpl in *.
  destruct w, shr, sht; simpl in *; try discriminate; subst; auto.
Qed.

(** The shape of a state in which the watcher has finished under a context
    without the marker. *)
Lemma no_marker_done_state (ctx : Context) (ls : list label) (st : state) :
  Value ctx ctxKey = None -> Inv ctx ls st -> watch st = WatchDone ->
  shut_redirect st = ShutDone /\ shut_tls st = ShutDone /\
  cancelled st = true /\ g_err st = gShutdown_err st.
Proof.
  intros Hm%has_marker_false [Hgs Hg Hpcs Hnr _ _ _ _ _ _] Hw.
  unfold pcs_ok in Hpcs. rewrite Hm in Hpcs.
  destruct st as [sr stl w shr sht ge gse c ret]; simpl in *. subst w.
  destruct shr, sht, c; simpl in *; try discriminate; auto.
Qed.

(** The result of [run], once it has returned. *)
Lemma returned_state (ctx : Context) (ls : list label) (st : state)
    (r : option error) :
  Inv ctx ls st -> returned st = Some r ->
  r = first_err (shutdown_results ls) /\ watch st = WatchDone /\
  spin_redirect st = SpinTaskDone /\ spin_tls st = SpinTaskDone.
Proof.
  intros [Hgs Hg _ _ _ _ _ _ _ Hret] Hr. rewrite Hr in Hret.
  destruct Hret as (-> & Hsp & Hw). rewrite Hw in Hg.
  destruct (spin_redirect st), (spin_tls st); try discriminate.
  split_and!; congruence.
Qed.

(** C1, as the code has it.  What a [Spin] call met is not part of the
    result of [run]: when [run] has returned, both [Spin] calls have
    returned and the watcher has finished, and the result is the first
    non-nil result of the [Shutdown] calls, nil when there is none; under a
    context with the marker it is nil, under one without the marker the
    context has been cancelled. *)
Theorem run_result_ignores_spin (ctx : Context) (ls : list label) (st : state)
    (r : option error) :
  run ctx ls = Some st ->
  returned st = Some r ->
  r = first_err (shutdown_results ls) /\
  (exists o, In (SpinReturn redirectServer o) ls) /\
  (exists o, In (SpinReturn tlsServer o) ls) /\
  watch st = WatchDone /\
  (Value ctx ctxKey <> None -> r = None) /\
  (Value ctx ctxKey = None -> In Cancel ls).
Proof.
  intros Hrun Hr. pose proof (run_Inv ctx ls st Hrun) as HI.
  destruct (returned_state ctx ls st r HI Hr) as (Hres & Hw & Hsr & Hst).
  split; [exact Hres|].
  split; [apply spin_returned_In; rewrite (inv_spin_r _ _ _ HI), Hsr; reflexivity|].
  split; [apply spin_returned_In; rewrite (inv_spin_t _ _ _ HI), Hst; reflexivity|].
  split; [exact Hw|]. split.
  - intros Hm. destruct (marker_state ctx ls st Hm HI) as (_ & _ & _ & _ & Hn).
    rewrite Hres, <- (inv_gShutdown _ _ _ HI). exact Hn.
  - intros Hm.
    destruct (no_marker_done_state ctx ls st Hm HI Hw) as (_ & _ & Hc & _).
    apply cancel_seen_In. rewrite (inv_cancelled _ _ _ HI). exact Hc.
Qed.

(** C2, as the code has it.  Under a context without the marker, once the
    watcher has finished, the context was cancelled, [Shutdown] was called
    on both servers, and the watcher's result, which is also what [run]
    returns, is the first non-nil [Shutdown] result in the order in which
    the calls returned: a second failure is not part of it.  The two calls
    run concurrently: there is an execution in which both are in progress
    at once. *)
Theorem watcher_returns_first_shutdown_error :
  (forall (ctx : Context) (ls : list label) (st : state),
     Value ctx ctxKey = None ->
     run ctx ls = Some st ->
     watch st = WatchDone ->
     In Cancel ls /\
     In (ShutdownCall redirectServer) ls /\
     In (ShutdownCall tlsServer) ls /\
     g_err st = first_err (shutdown_results ls) /\
     (forall r, returned st = Some r -> r = first_err (shutdown_results ls))) /\
  (forall e1 e2 rs, first_err (Some e1 :: Some e2 :: rs) = Some e1) /\
  (exists ls st,
     run (WithCancel Background) ls = Some st /\
     shut_redirect st = ShutCalled /\ shut_tls st = ShutCalled).
Proof.
  split; [|split].
  - intros ctx ls st Hm Hrun Hw. pose proof (run_Inv ctx ls st Hrun) as HI.
    destruct (no_marker_done_state ctx ls st Hm HI Hw) as (Hr & Ht & Hc & Hg).
    split; [apply cancel_seen_In; rewrite (inv_cancelled _ _ _ HI); exact Hc|].
    split; [apply shutdown_called_In; rewrite (inv_call_r _ _ _ HI), Hr;
            reflexivity|].
    split; [apply shutdown_called_In; rewrite (inv_call_t _ _ _ HI), Ht;
            reflexivity|].
    split; [rewrite Hg; apply (inv_gShutdown _ _ _ HI)|].
    intros r Hret. apply (returned_state ctx ls st r HI Hret).
  - reflexivity.
  - exists [WatchCheck; Cancel; WatchWake; ShutdownCall redirectServer;
            ShutdownCall tlsServer]. eexists. split; [reflexivity|]. split; reflexivity.
Qed.

(** C8. Under a context that carries a non-nil value under [ctxKey], the
    watcher's first step ends it with a nil result, and in no execution of
    [run] is [Shutdown] called on either server: the watcher is at its
    start or has finished, the group holds no error, and [run] returns
    nil. *)
Theorem marker_suppresses_shutdown (ctx : Context) (ls : list label)
    (st : state) :
  Value ctx ctxKey <> None ->
  run ctx ls = Some st ->
  (forall s, ~ In (ShutdownCall s) ls) /\
  (watch st = WatchReady \/ watch st = WatchDone) /\
  g_err st = None /\
  (watch st = WatchReady ->
   exists st', step ctx st WatchCheck = Some st' /\
               watch st' = WatchDone /\ g_err st' = None) /\
  (forall r, returned st = Some r -> r = None).
Proof.
  intros Hm Hrun. pose proof (run_Inv ctx ls st Hrun) as HI.
  destruct (marker_state ctx ls st Hm HI) as (Hw & Hr & Ht & Hg & Hgs).
  split_and!.
  - intros [] Hin%shutdown_called_In.
    + rewrite (inv_call_r _ _ _ HI), Hr in Hin. discriminate Hin.
    + rewrite (inv_call_t _ _ _ HI), Ht in Hin. discriminate Hin.
  - exact Hw.
  - exact Hg.
  - intros Hready. unfold step. rewrite Hready.
    destruct (Value ctx ctxKey) as [v|]; [|done].
    eexists. split; [reflexivity|]. simpl. rewrite Hg. done.
  - intros r Hret.
    destruct (returned_state ctx ls st r HI Hret) as (-> & _).
    rewrite <- (inv_gShutdown _ _ _ HI). exact Hgs.
Qed.

(** C9. [Run] calls [run] with [todoCtx], which carries the value ["done"]
    under [ctxKey].  So in no execution of [Run] is [Shutdown] called on
    either server or the receive from [ctx.Done()] reached, and when [Run]
    has returned both [Spin] calls have returned and the result is nil. *)
Theorem Run_never_shuts_down :
  (forall ls, Run ls = run todoCtx ls) /\
  Value todoCtx ctxKey = Some "done" /\
  forall (ls : list label) (st : state),
    Run ls = Some st ->
    (forall s, ~ In (ShutdownCall s) ls) /\
    watch st <> WatchBlocked /\ watch st <> WatchShutdown /\
    forall r, returned st = Some r ->
      r = None /\
      (exists o, In (SpinReturn redirectServer o) ls) /\
      (exists o, In (SpinReturn tlsServer o) ls).
Proof.
  split; [reflexivity|]. split; [reflexivity|].
  intros ls st Hrun. unfold Run in Hrun.
  assert (Hm : Value todoCtx ctxKey <> None) by discriminate.
  pose proof (run_Inv todoCtx ls st Hrun) as HI.
  destruct (marker_state todoCtx ls st Hm HI) as (Hw & Hr & Ht & Hg & Hgs).
  split_and!.
  - intros [] Hin%shutdown_called_In.
    + rewrite (inv_call_r _ _ _ HI), Hr in Hin. discriminate Hin.
    + rewrite (inv_call_t _ _ _ HI), Ht in Hin. discriminate Hin.
  - destruct Hw as [-> | ->]; discriminate.
  - destruct Hw as [-> | ->]; discriminate.
  - intros r Hret.
    destruct (returned_state todoCtx ls st r HI Hret) as (Hres & _ & Hsr & Hst).
    split_and!.
    + rewrite Hres, <- (inv_gShutdown _ _ _ HI). exact Hgs.
    + apply spin_returned_In. rewrite (inv_spin_r _ _ _ HI), Hsr. reflexivity.
    + apply spin_returned_In. rewrite (inv_spin_t _ _ _ HI), Hst. reflexivity.
Qed.

End orchestrator_facts.

Module run_examples.
Import context orchestrator sample sample_runs.

(** C1, as the specification has it, fails.  The secure server's [Spin]
    comes back with a bind failure before any cancellation: [Run] returns
    nil, not that error; and under a cancellable context that is not yet
    cancelled [run] has not returned and [g.Wait()] cannot return. *)
Lemma spin_error_not_returned :
  In (SpinReturn tlsServer (Some bind_error)) bind_failure /\
  ~ In Cancel bind_failure /\
  returned <$> Run bind_failure = Some (Some None) /\
  returned <$> Run bind_failure <> Some (Some (Some bind_error)) /\
  returned <$> RunWithContext (WithCancel Background)
                 [SpinCall tlsServer; SpinReturn tlsServer (Some bind_error);
                  SpinCall redirectServer; SpinReturn redirectServer None;
                  WatchCheck] = Some None /\
  RunWithContext (WithCancel Background)
    [SpinCall tlsServer; SpinReturn tlsServer (Some bind_error);
     SpinCall redirectServer; SpinReturn redirectServer None;
     WatchCheck; Wait] = None.
Proof.
  split_and!; try reflexivity.
  - simpl. auto.
  - simpl. intros H. repeat (destruct H as [H|H]; [discriminate H|]). exact H.
  - discriminate.
Qed.

Lemma run_result_ignores_spin_witness :
  @None error = first_err (shutdown_results bind_failure) /\
  (exists o, In (SpinReturn redirectServer o) bind_failure) /\
  (exists o, In (SpinReturn tlsServer o) bind_failure) /\
  WatchDone = WatchDone /\
  (Value todoCtx ctxKey <> None -> @None error = None) /\
  (Value todoCtx ctxKey = None -> In Cancel bind_failure).
Proof.
  apply (orchestrator_facts.run_result_ignores_spin todoCtx bind_failure
           (mkState SpinTaskDone SpinTaskDone WatchDone ShutIdle ShutIdle
              None None false (Some None)) None); reflexivity.
Defined.

(** C2, as the specification has it, fails.  Both [Shutdown] calls fail:
    [run] returns the error of the first one alone, which does not report
    the failure of the second. *)
Lemma second_shutdown_error_dropped :
  shutdown_results both_shutdowns_fail
    = [Some redirect_shutdown_error; Some tls_shutdown_error] /\
  returned <$> RunWithContext (WithCancel Background) both_shutdowns_fail
    = Some (Some (Some redirect_shutdown_error)) /\
  ~ reports (Some redirect_shutdown_error) tls_shutdown_error.
Proof.
  split_and!; try reflexivity.
  intros H. specialize (H _ (or_introl eq_refl)).
  destruct H as [H | []]. discriminate H.
Qed.

Lemma watcher_returns_first_shutdown_error_witness :
  In Cancel both_shutdowns_fail /\
  In (ShutdownCall redirectServer) both_shutdowns_fail /\
  In (ShutdownCall tlsServer) both_shutdowns_fail /\
  Some redirect_shutdown_error
    = first_err (shutdown_results both_shutdowns_fail) /\
  (forall r, Some (Some redirect_shutdown_error) = Some r ->
             r = first_err (shutdown_results both_shutdowns_fail)).
Proof.
  apply (proj1 orchestrator_facts.watcher_returns_first_shutdown_error
           (WithCancel Background) both_shutdowns_fail
           (mkState SpinTaskDone SpinTaskDone WatchDone ShutDone ShutDone
              (Some redirect_shutdown_error) (Some redirect_shutdown_error)
              true (Some (Some redirect_shutdown_error))));
    reflexivity.
Defined.

Lemma marker_suppresses_shutdown_witness :
  (forall s, ~ In (ShutdownCall s) [Cancel; SpinCall tlsServer; WatchCheck]) /\
  (WatchDone = WatchReady \/ WatchDone = WatchDone) /\
  @None error = None /\
  (WatchDone = WatchReady ->
   exists st', step terminating_ctx
                 (mkState SpinReady Spinning WatchDone ShutIdle ShutIdle
                    None None true None) WatchCheck = Some st' /\
               watch st' = WatchDone /\ g_err st' = None) /\
  (forall r, @None (option error) = Some r -> r = None).
Proof.
  apply (orchestrator_facts.marker_suppresses_shutdown terminating_ctx
           [Cancel; SpinCall tlsServer; WatchCheck]
           (mkState SpinReady Spinning WatchDone ShutIdle ShutIdle
              None None true None)); [discriminate | reflexivity].
Defined.

Lemma Run_never_shuts_down_witness :
  (forall s, ~ In (ShutdownCall s) bind_failure) /\
  WatchDone <> WatchBlocked /\ WatchDone <> WatchShutdown /\
  forall r : option error, Some None = Some r ->
    r = None /\
    (exists o, In (SpinReturn redirectServer o) bind_failure) /\
    (exists o, In (SpinReturn tlsServer o) bind_failure).
Proof.
  apply (proj2 (proj2 orchestrator_facts.Run_never_shuts_down) bind_failure
           (mkState SpinTaskDone SpinTaskDone WatchDone ShutIdle ShutIdle
              None None false (Some None))); reflexivity.
Defined.

End run_examples.

(** * Further properties of [run] *)

Module orchestrator_more.
Import context orchestrator orchestrator_ext orchestrator_facts.

Lemma exec_app (ctx : Context) (a b : list label) (st : state) :
  exec ctx st (a ++ b) =
    match exec ctx st a with
    | Some st1 => exec ctx st1 b
    | None => None
    end.
Proof.
  revert st. induction a as [|l a IH]; intros st; simpl; [done|].
  destruct (step ctx st l); [apply IH | done].
Qed.

(** An execution that goes through the event [l] reaches a state at which
    [l] can happen. *)
Lemma run_split (ctx : Context) (pre post : list label) (l : label)
    (st : state) :
  run ctx (pre ++ l :: post) = Some st ->
  exists st0 st1, run ctx pre = Some st0 /\ step ctx st0 l = Some st1.
Proof.
  unfold run. rewrite exec_app. destruct (exec ctx init pre) as [st0|]; [|done].
  simpl. destruct (step ctx st0 l) as [st1|] eqn:Hs; [|done]. eauto.
Qed.

Lemma step_cancelled (ctx : Context) (st st' : state) (l : label) :
  can_cancel ctx = false -> step ctx st l = Some st' ->
  cancelled st' = cancelled st.
Proof.
  intros Hc Hstep. destruct st as [sr stl w shr sht ge gse c ret].
  destruct l as [s|s o| | | |s|s r| |]; simpl in Hstep;
    try destruct s; simpl in Hstep; try (rewrite Hc in Hstep; simpl in Hstep);
    step_cases Hstep; try discriminate Hstep; try (injection Hstep as <-;
    reflexivity).
Qed.

Lemma exec_cancelled (ctx : Context) (ls : list label) (st st' : state) :
  can_cancel ctx = false -> exec ctx st ls = Some st' ->
  cancelled st' = cancelled st.
Proof.
  intros Hc. revert st. induction ls as [|l ls IH]; intros st Hex; simpl in Hex.
  - by injection Hex as <-.
  - destruct (step ctx st l) as [st1|] eqn:Hs; [|done].
    rewrite (IH st1 Hex). by eapply step_cancelled.
Qed.

(** Under a context that has no marker and cannot be cancelled, such as
    [context.Background()], [run] never returns, whatever the servers do:
    the watcher stays before or at its receive from [ctx.Done()], no
    [Shutdown] is called, and [g.Wait()] does not return. *)
Theorem run_blocks_without_cancel (ctx : Context) (ls : list label)
    (st : state) :
  Value ctx ctxKey = None ->
  can_cancel ctx = false ->
  run ctx ls = Some st ->
  returned st = None /\
  (watch st = WatchReady \/ watch st = WatchBlocked) /\
  (forall s, ~ In (ShutdownCall s) ls) /\
  ~ In Wait ls.
Proof.
  intros Hm Hc Hrun. pose proof (run_Inv ctx ls st Hrun) as HI.
  pose proof (exec_cancelled ctx ls init st Hc Hrun) as Hcanc. simpl in Hcanc.
  pose proof (inv_pcs _ _ _ HI) as Hpcs. unfold pcs_ok in Hpcs.
  apply has_marker_false in Hm. rewrite Hm, Hcanc in Hpcs.
  assert (Hw : watch st = WatchReady \/ watch st = WatchBlocked).
  { destruct (watch st); simpl in Hpcs; auto; discriminate Hpcs. }
  assert (Hidle : shut_redirect st = ShutIdle /\ shut_tls st = ShutIdle).
  { destruct Hw as [Hw|Hw]; rewrite Hw in Hpcs; simpl in Hpcs;
      destruct (shut_redirect st), (shut_tls st); try discriminate Hpcs; auto. }
  split_and!.
  - destruct (returned st) as [r|] eqn:Hr; [|done].
    destruct (returned_state ctx ls st r HI Hr) as (_ & Hd & _).
    destruct Hw as [Hw|Hw]; congruence.
  - exact Hw.
  - destruct Hidle as [Hr Ht].
    intros [] Hin%shutdown_called_In.
    + rewrite (inv_call_r _ _ _ HI), Hr in Hin. discriminate Hin.
    + rewrite (inv_call_t _ _ _ HI), Ht in Hin. discriminate Hin.
  - intros Hin. apply in_split in Hin as (pre & post & ->).
    destruct (run_split ctx pre post Wait st Hrun) as (st0 & st1 & Hr0 & Hs).
    pose proof (run_Inv ctx pre st0 Hr0) as HI0.
    pose proof (exec_cancelled ctx pre init st0 Hc Hr0) as Hc0. simpl in Hc0.
    pose proof (inv_pcs _ _ _ HI0) as Hp0. unfold pcs_ok in Hp0.
    rewrite Hm, Hc0 in Hp0. simpl in Hs.
    destruct (watch st0); simpl in *; discriminate.
Qed.

(** Once [run] has returned, nothing more happens in it: the only event
    still possible is the cancellation of the context by its owner, and the
    result stays what it was. *)
Theorem nothing_after_return (ctx : Context) (ls : list label)
    (st st' : state) (r : option error) (l : label) :
  run ctx ls = Some st ->
  returned st = Some r ->
  step ctx st l = Some st' ->
  l = Cancel /\ returned st' = Some r /\
  g_err st' = g_err st /\ watch st' = WatchDone.
Proof.
  intros Hrun Hr Hstep. pose proof (run_Inv ctx ls st Hrun) as HI.
  destruct (returned_state ctx ls st r HI Hr) as (_ & Hw & Hsr & Hst).
  pose proof (inv_pcs _ _ _ HI) as Hpcs. unfold pcs_ok in Hpcs.
  destruct st as [sr stl w shr sht ge gse c ret]. simpl in *. subst.
  destruct l as [s|s o| | | |s|s r'| |]; simpl in Hstep;
    try destruct s; simpl in Hstep; try discriminate Hstep.
  all: try solve [destruct (has_marker ctx), shr, sht, c; simpl in *;
                  discriminate].
  destruct (can_cancel ctx && negb c); [|discriminate Hstep].
  injection Hstep as <-. simpl. auto.
Qed.

Lemma first_err_In (rs : list (option error)) (e : error) :
  first_err rs = Some e -> In (Some e) rs.
Proof.
  induction rs as [|[e'|] rs IH]; simpl; [done| |].
  - intros [= ->]. auto.
  - auto.
Qed.

Lemma first_err_nil (rs : list (option error)) :
  first_err rs = None <-> forall e, ~ In (Some e) rs.
Proof.
  induction rs as [|[e'|] rs IH]; simpl.
  - split; [intros _ e [] | done].
  - split; [done | intros H; destruct (H e'); auto].
  - rewrite IH. split.
    + intros H e [He|He]; [discriminate He | exact (H e He)].
    + intros H e He. apply (H e). auto.
Qed.

Lemma shutdown_results_In (ls : list label) (r : option error) :
  In r (shutdown_results ls) <-> exists s, In (ShutdownReturn s r) ls.
Proof.
  induction ls as [|l ls IH]; simpl.
  - split; [done | intros [x []]].
  - destruct l as [?|? ?| | | |?|s' r'| |]; simpl; rewrite ?IH;
      try (split; [intros [x H]; exists x; auto
                  | intros [x [H|H]]; [discriminate H | exists x; exact H]]).
    split.
    + intros [<- | [x H]]; [exists s'; auto | exists x; auto].
    + intros [x [H | H]]; [injection H as _ ->; auto | right; eauto].
Qed.

(** Every error [run] returns is an error some [Shutdown] call returned,
    and [run] returns nil exactly when no [Shutdown] call that has returned
    failed. *)
Theorem run_error_is_shutdown_error (ctx : Context) (ls : list label)
    (st : state) (r : option error) :
  run ctx ls = Some st ->
  returned st = Some r ->
  (forall e, r = Some e -> exists s, In (ShutdownReturn s (Some e)) ls) /\
  (r = None <-> forall s e, ~ In (ShutdownReturn s (Some e)) ls).
Proof.
  intros Hrun Hr. pose proof (run_Inv ctx ls st Hrun) as HI.
  destruct (returned_state ctx ls st r HI Hr) as (-> & _). split.
  - intros e He. apply shutdown_results_In, first_err_In, He.
  - rewrite first_err_nil. split.
    + intros H s e Hin. apply (H e). apply shutdown_results_In. eauto.
    + intros H e [s Hin]%shutdown_results_In. exact (H s e Hin).
Qed.

(** [Shutdown] is entered on a server only after the context has been
    cancelled, only under a context without the marker, and at most once:
    an execution that contains the call has the cancellation before it and
    no other call on that server, before or after. *)
Theorem shutdown_once_after_cancel (ctx : Context) (pre post : list label)
    (s : server) (st : state) :
  run ctx (pre ++ ShutdownCall s :: post) = Some st ->
  In Cancel pre /\
  Value ctx ctxKey = None /\
  ~ In (ShutdownCall s) pre /\
  ~ In (ShutdownCall s) post.
Proof.
  assert (Hpre : forall pre post st,
            run ctx (pre ++ ShutdownCall s :: post) = Some st ->
            In Cancel pre /\ Value ctx ctxKey = None /\
            ~ In (ShutdownCall s) pre).
  { clear. intros pre post st Hrun.
    destruct (run_split ctx pre post _ st Hrun) as (st0 & st1 & Hr0 & Hs).
    pose proof (run_Inv ctx pre st0 Hr0) as HI.
    pose proof (inv_pcs _ _ _ HI) as Hpcs. unfold pcs_ok in Hpcs.
    pose proof (inv_cancelled _ _ _ HI) as Hc.
    pose proof (inv_call_r _ _ _ HI) as Hcr.
    pose proof (inv_call_t _ _ _ HI) as Hct.
    rewrite <- cancel_seen_In, <- has_marker_false, <- shutdown_called_In.
    destruct st0 as [sr stl w shr sht ge gse c ret]. simpl in *.
    destruct s; simpl in Hs.
    - destruct shr; try discriminate Hs.
      destruct (has_marker ctx), w, sht, c; simpl in *;
        try discriminate Hpcs; rewrite Hc, Hcr; auto.
    - destruct sht; try discriminate Hs.
      destruct (has_marker ctx), w, shr, c; simpl in *;
        try discriminate Hpcs; rewrite Hc, Hct; auto. }
  intros Hrun. destruct (Hpre pre post st Hrun) as (Hc & Hm & Hn).
  split_and!; try done.
  intros Hin. apply in_split in Hin as (b1 & b2 & ->).
  assert (Hrun' : run ctx ((pre ++ ShutdownCall s :: b1)
                           ++ ShutdownCall s :: b2) = Some st).
  { rewrite <- app_assoc. exact Hrun. }
  destruct (Hpre _ _ _ Hrun') as (_ & _ & Hn').
  apply Hn'. apply in_app_iff. right. left. reflexivity.
Qed.

Lemma spin_called_app (s : server) (a b : list label) :
  spin_called s (a ++ b) = spin_called s a || spin_called s b.
Proof.
  induction a as [|l a IH]; simpl; [done|].
  destruct l as [[]| | | | | | | |], s; simpl; by rewrite ?IH.
Qed.

Lemma spin_called_In (s : server) (ls : list label) :
  spin_called s ls = true <-> In (SpinCall s) ls.
Proof.
  induction ls as [|l ls IH]; simpl; [split; [discriminate | tauto]|].
  destruct l as [[]| | | | | | | |], s; simpl; rewrite ?IH;
    split; auto; try (intros [H|H]; [discriminate H | exact H]).
Qed.

Lemma step_spin_called (ctx : Context) (ls : list label) (st st' : state)
    (l : label) :
  (forall s, spin_called s ls = negb (is_SpinReady (spin st s))) ->
  step ctx st l = Some st' ->
  forall s, spin_called s (ls ++ [l]) = negb (is_SpinReady (spin st' s)).
Proof.
  intros H Hstep s. rewrite spin_called_app.
  pose proof (H redirectServer) as Hr. pose proof (H tlsServer) as Ht.
  destruct st as [sr stl w shr sht ge gse c ret]. simpl in Hr, Ht.
  destruct l as [x|x o| | | |x|x r| |]; simpl in Hstep;
    try destruct x; simpl in Hstep; step_cases Hstep;
    try discriminate Hstep; injection Hstep as <-;
    destruct s; simpl in *; rewrite ?orb_false_r, ?orb_true_r;
    try done; congruence.
Qed.

Lemma run_spin_called (ctx : Context) (ls : list label) (st : state) :
  run ctx ls = Some st ->
  forall s, spin_called s ls = negb (is_SpinReady (spin st s)).
Proof.
  unfold run.
  assert (H : forall ls pre st0 st1,
            (forall s, spin_called s pre = negb (is_SpinReady (spin st0 s))) ->
            exec ctx st0 ls = Some st1 ->
            forall s, spin_called s (pre ++ ls)
                      = negb (is_SpinReady (spin st1 s))).
  { clear. induction ls as [|l ls IH]; intros pre st0 st1 H0 Hex; simpl in Hex.
    - injection Hex as <-. by rewrite app_nil_r.
    - destruct (step ctx st0 l) as [st2|] eqn:Hs; [|done].
      change (l :: ls) with ([l] ++ ls)%list. rewrite app_assoc.
      eapply IH; [|exact Hex]. by eapply step_spin_called. }
  intros Hrun. apply (H ls [] init st); [intros []; reflexivity | exact Hrun].
Qed.

(** [run] enters [Spin] at most once on each server, and a [Spin] call
    returns at most once and only after it was entered. *)
Theorem spin_called_once (ctx : Context) (pre post : list label) (s : server)
    (st : state) :
  (run ctx (pre ++ SpinCall s :: post) = Some st ->
   ~ In (SpinCall s) pre /\ ~ In (SpinCall s) post) /\
  (forall o, run ctx (pre ++ SpinReturn s o :: post) = Some st ->
             In (SpinCall s) pre /\
             (forall o', ~ In (SpinReturn s o') pre) /\
             (forall o', ~ In (SpinReturn s o') post)).
Proof.
  assert (Hcall : forall pre post st,
            run ctx (pre ++ SpinCall s :: post) = Some st ->
            ~ In (SpinCall s) pre).
  { clear. intros pre post st Hrun.
    destruct (run_split ctx pre post _ st Hrun) as (st0 & st1 & Hr0 & Hs).
    pose proof (run_spin_called ctx pre st0 Hr0 s) as Hc.
    rewrite <- spin_called_In, Hc. simpl in Hs.
    destruct (spin st0 s); simpl in *; [discriminate | done | done]. }
  assert (Hret : forall pre post st o,
            run ctx (pre ++ SpinReturn s o :: post) = Some st ->
            In (SpinCall s) pre /\ forall o', ~ In (SpinReturn s o') pre).
  { clear. intros pre post st o Hrun.
    destruct (run_split ctx pre post _ st Hrun) as (st0 & st1 & Hr0 & Hs).
    pose proof (run_spin_called ctx pre st0 Hr0 s) as Hc.
    pose proof (run_Inv ctx pre st0 Hr0) as HI.
    pose proof (spin_returned_In s pre) as Hin.
    rewrite <- spin_called_In, Hc. simpl in Hs.
    assert (Hsr : spin_returned s pre = is_SpinTaskDone (spin st0 s))
      by (destruct s; [apply (inv_spin_r _ _ _ HI) | apply (inv_spin_t _ _ _ HI)]).
    rewrite Hsr in Hin.
    destruct (spin st0 s); simpl in *; try discriminate Hs.
    split; [reflexivity|]. intros o' Ho'.
    destruct Hin as [_ Hin]. discriminate Hin. eauto. }
  split.
  - intros Hrun. split; [eapply Hcall, Hrun|].
    intros Hin. apply in_split in Hin as (b1 & b2 & ->).
    assert (Hrun' : run ctx ((pre ++ SpinCall s :: b1) ++ SpinCall s :: b2)
                    = Some st) by (rewrite <- app_assoc; exact Hrun).
    apply (Hcall _ _ _ Hrun'). apply in_app_iff. right. left. reflexivity.
  - intros o Hrun. destruct (Hret _ _ _ _ Hrun) as [Hc Hn].
    split; [exact Hc|]. split; [exact Hn|].
    intros o' Hin. apply in_split in Hin as (b1 & b2 & ->).
    assert (Hrun' : run ctx ((pre ++ SpinReturn s o :: b1)
                             ++ SpinReturn s o' :: b2) = Some st)
      by (rewrite <- app_assoc; exact Hrun).
    destruct (Hret _ _ _ _ Hrun') as [_ Hn'].
    apply (Hn' o). apply in_app_iff. right. left. reflexivity.
Qed.

(** [run] cannot get stuck: from every state it reaches, if the context
    carries the marker or can be cancelled, there is a continuation, in
    which the context is cancelled where needed and every pending server
    call returns, after which [run] has returned. *)
Theorem run_can_always_return (ctx : Context) (ls : list label) (st : state) :
  run ctx ls = Some st ->
  Value ctx ctxKey <> None \/ can_cancel ctx = true ->
  exists st',
    run ctx (ls ++ completion ctx st) = Some st' /\
    returned st' <> None.
Proof.
  intros Hrun Hctx. pose proof (run_Inv ctx ls st Hrun) as HI.
  unfold run in *. rewrite exec_app, Hrun.
  pose proof (inv_pcs _ _ _ HI) as Hpcs. unfold pcs_ok in Hpcs.
  pose proof (inv_returned _ _ _ HI) as Hret.
  unfold completion, finish_spin, finish_shut, finish_watch.
  unfold has_marker in *.
  destruct st as [sr stl w shr sht ge gse c ret]. simpl in Hpcs, Hret.
  destruct (Value ctx ctxKey) as [v|] eqn:HV;
    destruct (can_cancel ctx) eqn:HC;
    try (destruct Hctx as [Hctx|Hctx]; [by destruct Hctx | discriminate Hctx]).
  all: destruct w, shr, sht, c; simpl in Hpcs; try discriminate Hpcs.
  all: destruct ret as [r|];
    [destruct Hret as (_ & Hsp & Hw); try discriminate Hw;
     destruct sr, stl; simpl in Hsp; try discriminate Hsp
    | destruct sr, stl].
  all: repeat (simpl; rewrite ?HV, ?HC); eexists; (split; [reflexivity|]);
    discriminate.
Qed.

End orchestrator_more.

(** * Further properties of the construction functions *)

Module autotls_more.
Import config autotls autotls_facts.

Section More.
Variable defaultOptions : Options.
Variable ToASCII : string -> option string.

Lemma fresh_not_live {A} (g : gmap loc A) (q : loc) :
  is_Some (g !! q) -> fresh (dom g) <> q.
Proof.
  intros Hs Heq. apply (is_fresh (dom g)). rewrite Heq. by apply elem_of_dom.
Qed.

Lemma fresh_dead {A} (g : gmap loc A) : g !! fresh (dom g) = None.
Proof. apply not_elem_of_dom, is_fresh. Qed.

(** The result of the constructor for a caller-supplied configuration. *)
Lemma NewServer_eq (E : env) (m p : loc) (opts : list Option) (h : heap)
    (M : autocert.Manager) (C : tls.Config) :
  managers h !! m = Some M ->
  configs h !! p = Some C ->
  NewServerWithManagerAndTlsConfig defaultOptions E m (Some p) opts h =
    let h1 := match autocert.Cache_ M with
              | None => store_manager m (autocert.set_Cache (getCacheDir E).1 M) h
              | Some _ => h
              end in
    let out := match autocert.Cache_ M, (getCacheDir E).2 with
               | None, Some e => [Error e]
               | _, _ => []
               end in
    let h2 := store_config p (merged m C)
                (store_config p
                   (tls.set_GetCertificate
                      (Some (tls.Manager_GetCertificate m)) C)
                   (store_config (fresh (dom (configs h)))
                      (autocert.TLSConfig_value m) h1)) in
    let r := frame.Apply
               (opts ++ [server.WithHostPorts ":https";
                         server.WithTransport standard_NewTransporter;
                         server.WithTLS (Some p)])%list
               (defaultOptions, defaultTransporter h) in
    Some (set_transporter r.2 h2,
          {| frame.options := r.1; frame.transport := r.2 |}, out).
Proof.
  intros Hm Hp.
  pose proof (fresh_not_live (configs h) p (mk_is_Some _ _ Hp)) as Hne.
  unfold NewServerWithManagerAndTlsConfig. rewrite Hm.
  destruct (autocert.Cache_ M) eqn:HC; [|destruct (getCacheDir E) as [c e]];
    cbn [TLSConfig new_config store_config store_manager configs managers
         defaultTransporter fst snd];
    rewrite lookup_insert_eq, (lookup_insert_ne _ _ _ _ Hne), Hp,
      lookup_insert_eq; unfold frame.Default;
    cbn [defaultTransporter store_config store_manager];
    match goal with
    | |- context [frame.Apply ?l ?s] => destruct (frame.Apply l s) as [o t]
    end; reflexivity.
Qed.

(** A manager that has a cache is left as it is: the constructor does not
    call [getCacheDir()], logs nothing, and changes no manager on the
    heap, so its result does not depend on what [getCacheDir()] would have
    returned. *)
Theorem cache_kept (E E' : env) (m p : loc) (opts : list Option) (h : heap)
    (M : autocert.Manager) (C : tls.Config) (c : autocert.Cache) :
  managers h !! m = Some M ->
  configs h !! p = Some C ->
  autocert.Cache_ M = Some c ->
  NewServerWithManagerAndTlsConfig defaultOptions E m (Some p) opts h
    = NewServerWithManagerAndTlsConfig defaultOptions E' m (Some p) opts h /\
  exists h' f,
    NewServerWithManagerAndTlsConfig defaultOptions E m (Some p) opts h
      = Some (h', f, []) /\
    managers h' = managers h.
Proof.
  intros Hm Hp HC.
  rewrite (NewServer_eq E m p opts h M C Hm Hp),
    (NewServer_eq E' m p opts h M C Hm Hp), HC.
  split; [reflexivity|]. cbn zeta. do 2 eexists. split; reflexivity.
Qed.

(** A manager without a cache gets the value [getCacheDir()] returned,
    nil included; when [getCacheDir()] also returned an error, that error
    is logged and nothing else happens to it: the server is built all the
    same, on [":https"], with the caller's configuration. *)
Theorem getCacheDir_error_is_only_logged (E : env) (m p : loc)
    (opts : list Option) (h : heap) (M : autocert.Manager) (C : tls.Config)
    (c : option autocert.Cache) (e : error) :
  managers h !! m = Some M ->
  configs h !! p = Some C ->
  autocert.Cache_ M = None ->
  getCacheDir E = (c, Some e) ->
  exists h' f,
    NewServerWithManagerAndTlsConfig defaultOptions E m (Some p) opts h
      = Some (h', f, [Error e]) /\
    managers h' !! m = Some (autocert.set_Cache c M) /\
    Addr (frame.options f) = ":https" /\
    TLS (frame.options f) = Some p.
Proof.
  intros Hm Hp HC HE.
  rewrite (NewServer_eq E m p opts h M C Hm Hp), HC, HE. cbn zeta.
  do 2 eexists. split; [reflexivity|].
  cbn [managers set_transporter store_config store_manager fst snd
       frame.options].
  rewrite lookup_insert_eq.
  destruct (frame_facts.Apply_forced opts (defaultOptions, defaultTransporter h)
              ":https" standard_NewTransporter (Some p)) as (Ha & Ht & _).
  done.
Qed.

(** With no configuration from the caller ([tlsc == nil]) the server is
    built with a new configuration object, which is the manager's own
    [TLSConfig()], and no configuration that existed before is changed. *)
Theorem nil_config_is_manager_default (E : env) (m : loc) (opts : list Option)
    (h : heap) (M : autocert.Manager) :
  managers h !! m = Some M ->
  exists h' f out c,
    NewServerWithManagerAndTlsConfig defaultOptions E m None opts h
      = Some (h', f, out) /\
    TLS (frame.options f) = Some c /\
    configs h !! c = None /\
    configs h' !! c = Some (autocert.TLSConfig_value m) /\
    (forall q, is_Some (configs h !! q) -> configs h' !! q = configs h !! q) /\
    Addr (frame.options f) = ":https" /\
    frame.transport f = standard_NewTransporter.
Proof.
  intros Hm. unfold NewServerWithManagerAndTlsConfig. rewrite Hm.
  set (p1 := fresh (dom (configs h))).
  pose proof (frame_facts.Apply_forced opts) as HA.
  destruct (autocert.Cache_ M) eqn:HC; [|destruct (getCacheDir E) as [c e]];
    cbn [TLSConfig new_config store_config store_manager configs managers
         defaultTransporter fst snd]; fold p1;
    match goal with
    | |- context [fresh (dom (<[p1 := ?v]> ?g))] =>
        set (p2 := fresh (dom (<[p1 := v]> g)));
        assert (Hne : p2 <> p1)
          by (apply fresh_not_live; rewrite lookup_insert_eq; eauto);
        assert (Hp2 : forall q, is_Some (g !! q) -> p2 <> q)
          by (intros q Hq; apply fresh_not_live;
              destruct (decide (p1 = q)) as [->|];
              [rewrite lookup_insert_eq; eauto
              | rewrite lookup_insert_ne by done; exact Hq])
    end;
    rewrite lookup_insert_eq, (lookup_insert_ne _ _ _ _ Hne), lookup_insert_eq;
    cbn [configs store_config]; rewrite lookup_insert_eq;
    unfold frame.Default;
    match goal with
    | |- context [frame.Apply ?l ?s] =>
        specialize (HA s ":https" standard_NewTransporter (Some p1));
        cbn zeta in HA; destruct (frame.Apply l s) as [o t]
    end;
    destruct HA as (HA1 & HA2 & HA3); cbn [fst snd] in *;
    do 3 eexists; exists p1; (split; [reflexivity|]);
    cbn [set_transporter configs managers frame.options frame.transport
         store_config store_manager];
    (split_and!; [exact HA2 | apply fresh_dead | | | exact HA1 | exact HA3]).
  all: try (rewrite lookup_insert_eq; reflexivity).
  all: intros q Hq; rewrite !lookup_insert_ne;
    [reflexivity | apply fresh_not_live, Hq | apply Hp2, Hq
    | apply fresh_not_live, Hq | apply fresh_not_live, Hq].
Qed.

Lemma merged_idem (m : loc) (C : tls.Config) : merged m (merged m C) = merged m C.
Proof. reflexivity. Qed.

Lemma with_cache_idem (E : env) (M : autocert.Manager) :
  with_cache E (with_cache E M) = with_cache E M.
Proof.
  unfold with_cache. destruct (autocert.Cache_ M) eqn:HC; [by rewrite HC|].
  simpl. destruct (getCacheDir E).1; reflexivity.
Qed.

(** Building a second server from the same manager and the same
    configuration object, with any options and whatever [getCacheDir()]
    returns at the second call: the configuration object is not changed
    again and the second server uses it too.  The manager goes through the
    cache step again: it is unchanged when the first call left it with a
    cache, or when [getCacheDir()] returns the cache it returned at the
    first call; a manager the first call left without a cache gets the
    value [getCacheDir()] returns at the second call. *)
Theorem constructor_twice (E E' : env) (m p : loc) (opts opts' : list Option)
    (h h1 : heap) (f1 : frame.Frame) (out1 : list string) :
  is_Some (managers h !! m) ->
  is_Some (configs h !! p) ->
  NewServerWithManagerAndTlsConfig defaultOptions E m (Some p) opts h
    = Some (h1, f1, out1) ->
  exists h2 f2 out2 M1,
    NewServerWithManagerAndTlsConfig defaultOptions E' m (Some p) opts' h1
      = Some (h2, f2, out2) /\
    configs h2 !! p = configs h1 !! p /\
    TLS (frame.options f2) = TLS (frame.options f1) /\
    managers h1 !! m = Some M1 /\
    (is_Some (autocert.Cache_ M1) -> managers h2 !! m = managers h1 !! m) /\
    ((getCacheDir E').1 = (getCacheDir E).1 ->
     managers h2 !! m = managers h1 !! m) /\
    (autocert.Cache_ M1 = None ->
     managers h2 !! m = Some (autocert.set_Cache (getCacheDir E').1 M1)).
Proof.
  intros [M Hm] [C Hp] H1.
  destruct (NewServer_spec defaultOptions E m p opts h M C Hm Hp)
    as (h1' & f1' & out1' & Heq & Hc1 & _ & Hm1 & _ & _ & Htls1 & _).
  rewrite H1 in Heq. injection Heq as <- <- <-.
  destruct (NewServer_spec defaultOptions E' m p opts' h1 _ _ Hm1 Hc1)
    as (h2 & f2 & out2 & Heq2 & Hc2 & _ & Hm2 & _ & _ & Htls2 & _).
  exists h2, f2, out2, (with_cache E M). split; [exact Heq2|].
  rewrite Hm2, Hm1, Hc2, Hc1, merged_idem, Htls1, Htls2.
  split_and!; try reflexivity.
  - intros [c Hc]. unfold with_cache at 1. by rewrite Hc.
  - intros HE. f_equal. unfold with_cache.
    destruct (autocert.Cache_ M) eqn:HC; [by rewrite HC|].
    cbn [autocert.Cache_ autocert.set_Cache]. rewrite HE.
    destruct (getCacheDir E).1; reflexivity.
  - intros Hc. unfold with_cache at 1. by rewrite Hc.
Qed.

(** When the cache directory can be created, [NewTlsConfig] logs nothing
    and gives the new manager the directory cache of [cacheDir()]; in
    either case the manager and the configuration it returns are new
    objects, and every manager and configuration that existed before is
    unchanged. *)
Theorem NewTlsConfig_fresh_objects (E : env) (domains : list string)
    (h : heap) :
  exists h' c out pm M,
    NewTlsConfig ToASCII E domains h = (h', c, out) /\
    configs h !! c = None /\ managers h !! pm = None /\
    configs h' !! c = Some (autocert.TLSConfig_value pm) /\
    managers h' !! pm = Some M /\
    (MkdirAll E (cacheDir E) = None ->
     out = [] /\
     autocert.Cache_ M = Some (autocert.DirCache (cacheDir E))) /\
    (forall q, is_Some (configs h !! q) -> configs h' !! q = configs h !! q) /\
    (forall q, is_Some (managers h !! q) -> managers h' !! q = managers h !! q) /\
    defaultTransporter h' = defaultTransporter h.
Proof.
  destruct (NewTlsConfig_spec E ToASCII domains h)
    as (h' & Heq & Hc & Hm & Hco & Hmo).
  eexists h', _, _, _, _. split; [exact Heq|].
  split; [apply fresh_dead|]. split; [apply fresh_dead|].
  split; [exact Hc|]. split; [exact Hm|]. split.
  - intros Hok. unfold built_manager. cbn [autocert.Cache_]. by rewrite Hok.
  - split; [exact Hco|]. split; [exact Hmo|].
    revert Heq. unfold NewTlsConfig.
    cbn [new_manager store_manager managers configs].
    destruct (0 <? length domains)%nat; cbn [managers store_manager];
      rewrite ?lookup_insert_eq;
      destruct (MkdirAll E (cacheDir E));
      cbn [managers store_manager TLSConfig new_config configs store_config];
      rewrite ?lookup_insert_eq;
      cbn [managers store_manager TLSConfig new_config configs store_config];
      intros [= <-]; reflexivity.
Qed.

(** Two calls of [NewTlsConfig] give two managers and two configurations:
    the second call leaves the manager of the first, and with it the host
    policy for the first list of domains, as it was. *)
Theorem NewTlsConfig_twice (E E' : env) (d1 d2 : list string) (h : heap) :
  exists h1 c1 out1 h2 c2 out2 pm1 pm2,
    NewTlsConfig ToASCII E d1 h = (h1, c1, out1) /\
    NewTlsConfig ToASCII E' d2 h1 = (h2, c2, out2) /\
    c1 <> c2 /\ pm1 <> pm2 /\
    configs h2 !! c1 = Some (autocert.TLSConfig_value pm1) /\
    configs h2 !! c2 = Some (autocert.TLSConfig_value pm2) /\
    managers h2 !! pm1 = Some (built_manager ToASCII E d1) /\
    managers h2 !! pm2 = Some (built_manager ToASCII E' d2).
Proof.
  destruct (NewTlsConfig_spec E ToASCII d1 h)
    as (h1 & Heq1 & Hc1 & Hm1 & _ & _).
  destruct (NewTlsConfig_spec E' ToASCII d2 h1)
    as (h2 & Heq2 & Hc2 & Hm2 & Hco & Hmo).
  eexists h1, (fresh (dom (configs h))), _, h2, (fresh (dom (configs h1))), _,
    (fresh (dom (managers h))), (fresh (dom (managers h1))).
  split; [exact Heq1|]. split; [exact Heq2|].
  split; [apply not_eq_sym, (fresh_not_live (configs h1)); rewrite Hc1; eauto|].
  split; [apply not_eq_sym, (fresh_not_live (managers h1)); rewrite Hm1; eauto|].
  split; [rewrite Hco, Hc1 by (rewrite Hc1; eauto); reflexivity|].
  split; [exact Hc2|].
  split; [rewrite Hmo, Hm1 by (rewrite Hm1; eauto); reflexivity|].
  exact Hm2.
Qed.

(** Handing the configuration [NewTlsConfig(domains...)] returned to
    [NewServerWithManagerAndTlsConfig] with another manager [m] rebinds
    its certificate callback to [m]: the server consults [m], whose host
    policy is what it was, and no longer the manager that holds the
    whitelist for [domains]. *)
Theorem NewTlsConfig_then_constructor (E : env) (domains : list string)
    (m : loc) (opts : list Option) (h : heap) (M : autocert.Manager) :
  managers h !! m = Some M ->
  exists h1 c out1 pm h2 f out2 C' M',
    NewTlsConfig ToASCII E domains h = (h1, c, out1) /\
    configs h1 !! c = Some (autocert.TLSConfig_value pm) /\
    NewServerWithManagerAndTlsConfig defaultOptions E m (Some c) opts h1
      = Some (h2, f, out2) /\
    TLS (frame.options f) = Some c /\
    configs h2 !! c = Some C' /\
    tls.GetCertificate C' = Some (tls.Manager_GetCertificate m) /\
    m <> pm /\
    managers h2 !! m = Some M' /\
    autocert.HostPolicy_ M' = autocert.HostPolicy_ M /\
    managers h2 !! pm = Some (built_manager ToASCII E domains).
Proof.
  intros Hm.
  destruct (NewTlsConfig_spec E ToASCII domains h)
    as (h1 & Heq1 & Hc1 & Hm1 & _ & Hmo).
  assert (Hne : fresh (dom (managers h)) <> m)
    by (apply fresh_not_live; eauto).
  assert (Hm' : managers h1 !! m = Some M)
    by (rewrite Hmo by eauto; exact Hm).
  destruct (NewServer_spec defaultOptions E m _ opts h1 M _ Hm' Hc1)
    as (h2 & f & out2 & Heq2 & Hc2 & _ & Hm2 & Hmo2 & _ & Htls & _).
  destruct (with_cache_fields E M) as ((_ & Hpol & _) & _).
  eexists h1, _, _, _, h2, f, out2, _, _.
  split; [exact Heq1|]. split; [exact Hc1|]. split; [exact Heq2|].
  split; [exact Htls|]. split; [exact Hc2|]. split; [reflexivity|].
  split; [exact (not_eq_sym Hne)|]. split; [exact Hm2|].
  split; [exact Hpol|]. rewrite Hmo2 by exact Hne. exact Hm1.
Qed.

End More.
End autotls_more.

(** * Properties of the option setters *)

Module option_facts.
Import config.

(** [WithTLS] and [WithTransport] do not commute.  Both orders leave the
    same options, with the TLS configuration set; but [WithTLS] applied
    last forces the standard transporter, while [WithTransport] applied
    after [WithTLS] replaces it, so a server with TLS set can end up with
    another transporter. *)
Theorem WithTLS_WithTransport_order (cfg : option loc) (t : Transporter)
    (s : opt_state) :
  let tls_then_transport := F (server.WithTransport t) (F (server.WithTLS cfg) s) in
  let transport_then_tls := F (server.WithTLS cfg) (F (server.WithTransport t) s) in
  tls_then_transport.1 = transport_then_tls.1 /\
  TLS tls_then_transport.1 = cfg /\
  tls_then_transport.2 = t /\
  transport_then_tls.2 = standard_NewTransporter /\
  (tls_then_transport = transport_then_tls <-> t = standard_NewTransporter).
Proof.
  destruct s as [o tr]. cbn. split_and!; try reflexivity.
  split; [intros [= ->]; reflexivity | intros ->; reflexivity].
Qed.

Import client.

(** On the client, [WithTLSConfig] also installs the standard dialer, with
    a nil configuration too; so a dialer set before it is lost, and a
    dialer set after it is kept together with the TLS configuration. *)
Theorem WithTLSConfig_WithDialer_order (cfg : option loc) (d : option Dialer)
    (o : ClientOptions) :
  let tls_then_dialer := client.F (WithDialer d) (client.F (WithTLSConfig cfg) o) in
  let dialer_then_tls := client.F (WithTLSConfig cfg) (client.F (WithDialer d) o) in
  Dialer_ tls_then_dialer = d /\
  Dialer_ dialer_then_tls = Some standard_NewDialer /\
  TLSConfig tls_then_dialer = cfg /\ TLSConfig dialer_then_tls = cfg /\
  Dialer_ (client.F (WithTLSConfig None) o) = Some standard_NewDialer /\
  dialer_then_tls = client.F (WithTLSConfig cfg) o /\
  (tls_then_dialer = dialer_then_tls <-> d = Some standard_NewDialer).
Proof.
  cbn. split_and!; try reflexivity.
  split; [intros [= ->]; reflexivity | intros ->; reflexivity].
Qed.

Section Retry.
Variable DelayPolicyFunc : Type.
Variable retry_Option : Type.
Variable CombineDelay_DefaultDelayPolicy : DelayPolicyFunc.
Variable DefaultMaxRetryTimes : Z.
Variable retry_Apply :
  list retry_Option -> retry.Config DelayPolicyFunc -> retry.Config DelayPolicyFunc.

Local Abbreviation W :=
  (WithRetryConfig DelayPolicyFunc retry_Option
     CombineDelay_DefaultDelayPolicy DefaultMaxRetryTimes retry_Apply).
Local Abbreviation defaults :=
  (retry_defaults DelayPolicyFunc CombineDelay_DefaultDelayPolicy
     DefaultMaxRetryTimes).

(** [WithRetryConfig] allocates its retry configuration once, when the
    option is built: every options object the option is applied to gets
    the same pointer, to the defaults with the retry options applied; a
    second call allocates another object and leaves the first as it
    was. *)
Theorem WithRetryConfig_shared (opts opts' : list retry_Option)
    (rs : gmap loc (retry.Config DelayPolicyFunc)) :
  exists p p',
    rs !! p = None /\
    (W opts rs).1 !! p = Some (retry_Apply opts defaults) /\
    (forall o, RetryConfig (client.F (W opts rs).2 o) = Some p) /\
    (forall q, is_Some (rs !! q) -> (W opts rs).1 !! q = rs !! q) /\
    p <> p' /\
    (forall o, RetryConfig (client.F (W opts' (W opts rs).1).2 o) = Some p') /\
    (W opts' (W opts rs).1).1 !! p = Some (retry_Apply opts defaults) /\
    (W opts' (W opts rs).1).1 !! p' = Some (retry_Apply opts' defaults).
Proof.
  assert (H1 : forall o (r : gmap loc (retry.Config DelayPolicyFunc)),
            (W o r).1 = <[fresh (dom r) := retry_Apply o defaults]> r).
  { intros o r. unfold WithRetryConfig. cbn [fst].
    rewrite lookup_insert_eq. apply insert_insert_eq. }
  set (p := fresh (dom rs)).
  exists p, (fresh (dom (W opts rs).1)).
  assert (Hp : (W opts rs).1 !! p = Some (retry_Apply opts defaults))
    by (rewrite H1; apply lookup_insert_eq).
  assert (Hne : p <> fresh (dom (W opts rs).1)).
  { intros Heq. apply (is_fresh (dom (W opts rs).1)). rewrite <- Heq.
    apply elem_of_dom. eauto. }
  split; [apply not_elem_of_dom, is_fresh|]. split; [exact Hp|].
  split; [reflexivity|]. split.
  - intros q Hq. rewrite H1. apply lookup_insert_ne.
    intros <-. apply (is_fresh (dom rs)), elem_of_dom, Hq.
  - split; [exact Hne|]. split; [reflexivity|]. rewrite (H1 opts' _). split.
    + rewrite lookup_insert_ne by (apply not_eq_sym, Hne). exact Hp.
    + apply lookup_insert_eq.
Qed.
End Retry.

End option_facts.

Module setter_facts.
Import setters.

(** The order of two server options matters only for [WithTLS] against
    [WithTransport]: any other two calls of different setters commute, and
    of two calls of the same setter the later one alone counts. *)
Theorem server_setters_compose (a b : server_setter) (s : config.opt_state) :
  (server_kind a <> server_kind b -> server_clash a b = false ->
   config.F (server_option a) (config.F (server_option b) s)
   = config.F (server_option b) (config.F (server_option a) s)) /\
  (server_kind a = server_kind b ->
   config.F (server_option a) (config.F (server_option b) s)
   = config.F (server_option a) s).
Proof.
  destruct s as [o tr].
  split; destruct a, b; cbn; intros; try reflexivity; try discriminate;
    contradiction.
Qed.

(** The order of two client options matters only for [WithTLSConfig]
    against [WithDialer]: any other two calls of different setters commute,
    and of two calls of the same setter the later one alone counts. *)
Theorem client_setters_compose (a b : client_setter) (o : client.ClientOptions) :
  (client_kind a <> client_kind b -> client_clash a b = false ->
   client.F (client_option a) (client.F (client_option b) o)
   = client.F (client_option b) (client.F (client_option a) o)) /\
  (client_kind a = client_kind b ->
   client.F (client_option a) (client.F (client_option b) o)
   = client.F (client_option a) o).
Proof.
  split; destruct a, b; cbn; intros; try reflexivity; try discriminate;
    contradiction.
Qed.

End setter_facts.

(** * Examples for the further properties *)

Module more_examples.
Import config context orchestrator orchestrator_ext autotls sample sample_runs
  sample_more.

Lemma run_blocks_without_cancel_witness :
  @None (option error) = None /\
  (WatchBlocked = WatchReady \/ WatchBlocked = WatchBlocked) /\
  (forall s, ~ In (ShutdownCall s) servers_stopped) /\
  ~ In Wait servers_stopped.
Proof.
  apply (orchestrator_more.run_blocks_without_cancel Background servers_stopped
           (mkState SpinTaskDone SpinTaskDone WatchBlocked ShutIdle ShutIdle
              None None false None)); reflexivity.
Defined.

Lemma nothing_after_return_witness :
  Cancel = Cancel /\
  returned (mkState SpinTaskDone SpinTaskDone WatchDone ShutIdle ShutIdle
              None None true (Some None)) = Some None /\
  @None error = None /\ WatchDone = WatchDone.
Proof.
  apply (orchestrator_more.nothing_after_return terminating_ctx clean_run
           (mkState SpinTaskDone SpinTaskDone WatchDone ShutIdle ShutIdle
              None None false (Some None))
           (mkState SpinTaskDone SpinTaskDone WatchDone ShutIdle ShutIdle
              None None true (Some None)) None Cancel); reflexivity.
Defined.

Lemma run_error_is_shutdown_error_witness :
  (forall e, Some redirect_shutdown_error = Some e ->
             exists s, In (ShutdownReturn s (Some e)) both_shutdowns_fail) /\
  (Some redirect_shutdown_error = None <->
   forall s e, ~ In (ShutdownReturn s (Some e)) both_shutdowns_fail).
Proof.
  apply (orchestrator_more.run_error_is_shutdown_error (WithCancel Background)
           both_shutdowns_fail
           (mkState SpinTaskDone SpinTaskDone WatchDone ShutDone ShutDone
              (Some redirect_shutdown_error) (Some redirect_shutdown_error)
              true (Some (Some redirect_shutdown_error)))); reflexivity.
Defined.

Lemma shutdown_once_after_cancel_witness :
  In Cancel [SpinCall redirectServer; SpinCall tlsServer; WatchCheck; Cancel;
             WatchWake] /\
  Value (WithCancel Background) ctxKey = None /\
  ~ In (ShutdownCall redirectServer)
      [SpinCall redirectServer; SpinCall tlsServer; WatchCheck; Cancel;
       WatchWake] /\
  ~ In (ShutdownCall redirectServer)
      [ShutdownCall tlsServer;
       ShutdownReturn redirectServer (Some redirect_shutdown_error);
       ShutdownReturn tlsServer (Some tls_shutdown_error);
       ShutdownWait; SpinReturn redirectServer None;
       SpinReturn tlsServer None; Wait].
Proof.
  apply (orchestrator_more.shutdown_once_after_cancel (WithCancel Background)
           [SpinCall redirectServer; SpinCall tlsServer; WatchCheck; Cancel;
            WatchWake]
           [ShutdownCall tlsServer;
            ShutdownReturn redirectServer (Some redirect_shutdown_error);
            ShutdownReturn tlsServer (Some tls_shutdown_error);
            ShutdownWait; SpinReturn redirectServer None;
            SpinReturn tlsServer None; Wait]
           redirectServer
           (mkState SpinTaskDone SpinTaskDone WatchDone ShutDone ShutDone
              (Some redirect_shutdown_error) (Some redirect_shutdown_error)
              true (Some (Some redirect_shutdown_error)))); reflexivity.
Defined.

Lemma spin_called_once_witness :
  (~ In (SpinCall tlsServer) [] /\
   ~ In (SpinCall tlsServer)
       [SpinReturn tlsServer (Some bind_error); SpinCall redirectServer;
        WatchCheck; SpinReturn redirectServer None; Wait]) /\
  (In (SpinCall tlsServer) [SpinCall tlsServer] /\
   (forall o', ~ In (SpinReturn tlsServer o') [SpinCall tlsServer]) /\
   (forall o', ~ In (SpinReturn tlsServer o')
                 [SpinCall redirectServer; WatchCheck;
                  SpinReturn redirectServer None; Wait])).
Proof.
  split.
  - apply (proj1 (orchestrator_more.spin_called_once todoCtx []
             [SpinReturn tlsServer (Some bind_error); SpinCall redirectServer;
              WatchCheck; SpinReturn redirectServer None; Wait] tlsServer
             (mkState SpinTaskDone SpinTaskDone WatchDone ShutIdle ShutIdle
                None None false (Some None)))); reflexivity.
  - apply (proj2 (orchestrator_more.spin_called_once todoCtx
             [SpinCall tlsServer]
             [SpinCall redirectServer; WatchCheck;
              SpinReturn redirectServer None; Wait] tlsServer
             (mkState SpinTaskDone SpinTaskDone WatchDone ShutIdle ShutIdle
                None None false (Some None))) (Some bind_error)); reflexivity.
Defined.

Lemma run_can_always_return_witness :
  exists st',
    run (WithCancel Background)
      (servers_stopped ++ completion (WithCancel Background)
         (mkState SpinTaskDone SpinTaskDone WatchBlocked ShutIdle ShutIdle
            None None false None)) = Some st' /\
    returned st' <> None.
Proof.
  apply (orchestrator_more.run_can_always_return (WithCancel Background)
           servers_stopped
           (mkState SpinTaskDone SpinTaskDone WatchBlocked ShutIdle ShutIdle
              None None false None)); [reflexivity | right; reflexivity].
Defined.

Lemma cache_kept_witness :
  NewServerWithManagerAndTlsConfig defaultOptions E_ok 1 (Some 1%positive) [] h1
    = NewServerWithManagerAndTlsConfig defaultOptions E_fail 1
        (Some 1%positive) [] h1 /\
  exists h' f,
    NewServerWithManagerAndTlsConfig defaultOptions E_ok 1 (Some 1%positive)
      [] h1 = Some (h', f, []) /\
    managers h' = managers h1.
Proof.
  apply (autotls_more.cache_kept defaultOptions E_ok E_fail 1 1 [] h1 M1 C0
           (autocert.OtherCache 3)); reflexivity.
Defined.

Lemma getCacheDir_error_is_only_logged_witness :
  exists h' f,
    NewServerWithManagerAndTlsConfig defaultOptions E_fail 1 (Some 1%positive)
      [] h0 = Some (h', f, [Error mkdir_error]) /\
    managers h' !! 1%positive = Some (autocert.set_Cache None M0) /\
    Addr (frame.options f) = ":https" /\
    TLS (frame.options f) = Some 1%positive.
Proof.
  apply (autotls_more.getCacheDir_error_is_only_logged defaultOptions E_fail
           1 1 [] h0 M0 C0 None mkdir_error); reflexivity.
Defined.

Lemma nil_config_is_manager_default_witness :
  exists h' f out c,
    NewServerWithManagerAndTlsConfig defaultOptions E_ok 1 None [] h0
      = Some (h', f, out) /\
    TLS (frame.options f) = Some c /\
    configs h0 !! c = None /\
    configs h' !! c = Some (autocert.TLSConfig_value 1) /\
    (forall q, is_Some (configs h0 !! q) -> configs h' !! q = configs h0 !! q) /\
    Addr (frame.options f) = ":https" /\
    frame.transport f = standard_NewTransporter.
Proof.
  apply (autotls_more.nil_config_is_manager_default defaultOptions E_ok 1 []
           h0 M0); reflexivity.
Defined.

(** Two scenarios: the cache directory is there at both calls, and the
    manager is the same after the second; it is missing at the first call
    and there at the second, and the manager gets its cache then. *)
Lemma constructor_twice_witness :
  (exists h1 f1 out1 h2 f2 out2,
     NewServerWithManagerAndTlsConfig defaultOptions E_ok 1 (Some 1%positive)
       [] h0 = Some (h1, f1, out1) /\
     NewServerWithManagerAndTlsConfig defaultOptions E_ok 1 (Some 1%positive)
       [server.WithReadTimeout 30] h1 = Some (h2, f2, out2) /\
     configs h2 !! 1%positive = configs h1 !! 1%positive /\
     TLS (frame.options f2) = TLS (frame.options f1) /\
     managers h2 !! 1%positive = managers h1 !! 1%positive) /\
  (exists h1 f1 out1 h2 f2 out2,
     NewServerWithManagerAndTlsConfig defaultOptions E_fail 1 (Some 1%positive)
       [] h0 = Some (h1, f1, out1) /\
     NewServerWithManagerAndTlsConfig defaultOptions E_ok 1 (Some 1%positive)
       [server.WithReadTimeout 30] h1 = Some (h2, f2, out2) /\
     configs h2 !! 1%positive = configs h1 !! 1%positive /\
     TLS (frame.options f2) = TLS (frame.options f1) /\
     managers h1 !! 1%positive = Some (autocert.set_Cache None M0) /\
     managers h2 !! 1%positive =
       Some (autocert.set_Cache
               (Some (autocert.DirCache "/home/app/.cache/golang-autocert"))
               (autocert.set_Cache None M0))).
Proof.
  split.
  - destruct (autotls_facts.NewServer_spec defaultOptions E_ok 1 1 [] h0 M0 C0
                eq_refl eq_refl) as (h1 & f1 & out1 & Heq & _).
    destruct (autotls_more.constructor_twice defaultOptions E_ok E_ok 1 1 []
                [server.WithReadTimeout 30] h0 h1 f1 out1
                (mk_is_Some _ _ eq_refl) (mk_is_Some _ _ eq_refl) Heq)
      as (h2 & f2 & out2 & M1 & Heq2 & Hc & Ht & _ & _ & Hsame & _).
    exists h1, f1, out1, h2, f2, out2.
    split; [exact Heq|]. split; [exact Heq2|]. split; [exact Hc|].
    split; [exact Ht|]. apply Hsame. reflexivity.
  - destruct (autotls_facts.NewServer_spec defaultOptions E_fail 1 1 [] h0 M0
                C0 eq_refl eq_refl)
      as (h1 & f1 & out1 & Heq & _ & _ & Hm1 & _).
    destruct (autotls_more.constructor_twice defaultOptions E_fail E_ok 1 1 []
                [server.WithReadTimeout 30] h0 h1 f1 out1
                (mk_is_Some _ _ eq_refl) (mk_is_Some _ _ eq_refl) Heq)
      as (h2 & f2 & out2 & M1 & Heq2 & Hc & Ht & HM1 & _ & _ & Hnew).
    exists h1, f1, out1, h2, f2, out2.
    split; [exact Heq|]. split; [exact Heq2|]. split; [exact Hc|].
    split; [exact Ht|]. split; [exact Hm1|].
    rewrite Hm1 in HM1. injection HM1 as <-. apply Hnew. reflexivity.
Defined.

Lemma NewTlsConfig_fresh_objects_witness :
  exists h' c out pm M,
    NewTlsConfig ToASCII_id E_ok ["example.com"] h0 = (h', c, out) /\
    configs h0 !! c = None /\ managers h0 !! pm = None /\
    managers h' !! pm = Some M /\
    out = [] /\
    autocert.Cache_ M
      = Some (autocert.DirCache "/home/app/.cache/golang-autocert") /\
    managers h' !! 1%positive = Some M0.
Proof.
  destruct (autotls_more.NewTlsConfig_fresh_objects ToASCII_id E_ok
              ["example.com"] h0)
    as (h' & c & out & pm & M & Heq & Hc & Hp & _ & Hm & Hok & _ & Hmo & _).
  destruct (Hok eq_refl) as [Hout Hcache].
  exists h', c, out, pm, M. split_and!; try done.
  apply (Hmo 1%positive). by exists M0.
Defined.

Lemma NewTlsConfig_then_constructor_witness :
  exists h1 c out1 pm h2 f out2 C' M',
    NewTlsConfig ToASCII_id E_ok ["example.com"] h0 = (h1, c, out1) /\
    configs h1 !! c = Some (autocert.TLSConfig_value pm) /\
    NewServerWithManagerAndTlsConfig defaultOptions E_ok 1 (Some c) [] h1
      = Some (h2, f, out2) /\
    TLS (frame.options f) = Some c /\
    configs h2 !! c = Some C' /\
    tls.GetCertificate C' = Some (tls.Manager_GetCertificate 1) /\
    1%positive <> pm /\
    managers h2 !! 1%positive = Some M' /\
    autocert.HostPolicy_ M' = autocert.HostPolicy_ M0 /\
    managers h2 !! pm = Some (built_manager ToASCII_id E_ok ["example.com"]).
Proof.
  apply (autotls_more.NewTlsConfig_then_constructor defaultOptions ToASCII_id
           E_ok ["example.com"] 1 [] h0 M0); reflexivity.
Defined.

Lemma server_setters_compose_witness :
  config.F (server.WithHostPorts ":8443")
    (config.F (server.WithReadTimeout 30) (defaultOptions, netpoll_NewTransporter))
  = config.F (server.WithReadTimeout 30)
      (config.F (server.WithHostPorts ":8443")
         (defaultOptions, netpoll_NewTransporter)).
Proof.
  apply (proj1 (setter_facts.server_setters_compose
                  (setters.SHostPorts ":8443") (setters.SReadTimeout 30)
                  (defaultOptions, netpoll_NewTransporter)));
    [discriminate | reflexivity].
Defined.

Lemma client_setters_compose_witness :
  client.F (client.WithName "frame") (client.F (client.WithKeepAlive true) O0)
  = client.F (client.WithKeepAlive true) (client.F (client.WithName "frame") O0).
Proof.
  apply (proj1 (setter_facts.client_setters_compose
                  (setters.CName "frame") (setters.CKeepAlive true) O0));
    [discriminate | reflexivity].
Defined.

End more_examples.
